(** * nsone-reports: activity-report window, fetch and normalisation

    A shallow embedding of [nsone-reports.py]: the JSON objects the provider's
    API returns, the Python operations the script applies to them, the
    time-window computation of [get_reports] and the per-record normalisation
    of [parse_reports], followed by the properties of the specification. *)

From Stdlib Require Import ZArith List String Ascii Bool Lia.
From Stdlib Require Import SpecFloat.
Import ListNotations.

Open Scope string_scope.
Open Scope list_scope.
Open Scope Z_scope.

(** ** Python values

    What [requests]' [r.json()] can return, and what the script stores in its
    result dictionaries.  A [str] is a sequence of characters, one [ascii] per
    code point (code points below 256); a [float] is an IEEE-754 binary64 in
    the Standard Library's [spec_float] form; a [dict] keeps insertion order
    and has pairwise distinct keys, so it is an association list that is
    looked up from the front. *)

#[warnings="-register-all"]
Inductive value : Type :=
| PNone
| PBool (b : bool)
| PInt (n : Z)
| PFloat (f : spec_float)
| PStr (s : string)
| PList (l : list value)
| PDict (d : list (string * value)).

Definition dict := list (string * value).

Fixpoint dict_lookup (k : string) (d : dict) : option value :=
  match d with
  | [] => None
  | (k', v) :: d' => if (k' =? k)%string then Some v else dict_lookup k d'
  end.

(** [d.get(k)]: the value, or [None]. *)
Definition dict_get (k : string) (d : dict) : value :=
  match dict_lookup k d with
  | Some v => v
  | None => PNone
  end.

(** [d[k] = v]: an existing key keeps its position, a new key goes last. *)
Fixpoint dict_setitem (k : string) (v : value) (d : dict) : dict :=
  match d with
  | [] => [(k, v)]
  | (k', v') :: d' =>
      if (k' =? k)%string then (k', v) :: d' else (k', v') :: dict_setitem k v d'
  end.

Definition dict_keys (d : dict) : list string := map fst d.

(** Truth value of an object, as [if x:] tests it. *)
Definition truthy (v : value) : bool :=
  match v with
  | PNone => false
  | PBool b => b
  | PInt n => negb (n =? 0)
  | PFloat (S754_zero _) => false
  | PFloat _ => true
  | PStr s => negb (s =? "")%string
  | PList [] => false
  | PList _ => true
  | PDict [] => false
  | PDict _ => true
  end.

(** ** Exceptions, the log and the monad of the script *)

Inductive exn : Type :=
| KeyError (key : string)
| TypeError
| ValueError
| AttributeError
| OverflowError
| OSError
| ConnectionError (msg : string).

(** The calls of [logging.debug] and [logging.error], in the order the
    script makes them. *)
Inductive log_record : Type :=
| DebugItem (item : value)          (* logging.debug(f"item = {item}") *)
| ErrorItem (item : value)          (* logging.error(f"item = {item}") *)
| ErrorExn (e : exn)                (* logging.error(e) *)
| ErrorBody (body : value).         (* logging.error(f"r.json() = {r.json()}") *)

(** How a call ends: it returns, an exception leaves it, or [sys.exit] ends
    the process. *)
Inductive result (A : Type) : Type :=
| Return (a : A)
| Raise (e : exn)
| Exit (e : exn).

Arguments Return {A} a.
Arguments Raise {A} e.
Arguments Exit {A} e.

Definition M (A : Type) : Type := list log_record -> result A * list log_record.

Definition ret {A} (a : A) : M A := fun l => (Return a, l).

Definition bind {A B} (m : M A) (f : A -> M B) : M B :=
  fun l =>
    match m l with
    | (Return a, l') => f a l'
    | (Raise e, l') => (Raise e, l')
    | (Exit e, l') => (Exit e, l')
    end.

Definition raise {A} (e : exn) : M A := fun l => (Raise e, l).
Definition sys_exit {A} (e : exn) : M A := fun l => (Exit e, l).
Definition logging (r : log_record) : M unit := fun l => (Return tt, l ++ [r]).

(** [try: body except KeyError as e: handler(e)]. *)
Definition try_except_KeyError {A} (body : M A) (handler : string -> M A) : M A :=
  fun l =>
    match body l with
    | (Raise (KeyError k), l') => handler k l'
    | r => r
    end.

(** The outcome of a call started with an empty log. *)
Definition run {A} (m : M A) : result A := fst (m []).

(** The call does not return: an exception or [sys.exit] ended it. *)
Definition aborts {A} (r : result A) : Prop :=
  match r with
  | Return _ => False
  | _ => True
  end.

(** The call leaves the log as it found it, and its outcome does not depend
    on the log. *)
Definition pure {A} (m : M A) : Prop := forall l, m l = (run m, l).

Declare Scope py_scope.
Delimit Scope py_scope with py.
Notation "x <- m ;; k" := (bind m (fun x => k))
  (at level 61, m at next level, right associativity) : py_scope.
Notation "m ;;; k" := (bind m (fun _ => k))
  (at level 61, right associativity) : py_scope.
Open Scope py_scope.

(** ** Operations on objects *)

(** [v.get(k)]: only a [dict] has the method. *)
Definition get (v : value) (k : string) : M value :=
  match v with
  | PDict d => ret (dict_get k d)
  | _ => raise AttributeError
  end.

(** [v[k]] with a string key. *)
Definition getitem (v : value) (k : string) : M value :=
  match v with
  | PDict d =>
      match dict_lookup k d with
      | Some x => ret x
      | None => raise (KeyError k)
      end
  | _ => raise TypeError
  end.

Fixpoint chars (s : string) : list value :=
  match s with
  | EmptyString => []
  | String c s' => PStr (String c EmptyString) :: chars s'
  end.

(** The elements [for i in v] visits. *)
Definition iter (v : value) : M (list value) :=
  match v with
  | PList l => ret l
  | PStr s => ret (chars s)
  | PDict d => ret (map PStr (dict_keys d))
  | _ => raise TypeError
  end.

(** [len(v)]. *)
Definition len (v : value) : M Z :=
  match v with
  | PList l => ret (Z.of_nat (List.length l))
  | PStr s => ret (Z.of_nat (String.length s))
  | PDict d => ret (Z.of_nat (List.length d))
  | _ => raise TypeError
  end.

Fixpoint mapM {A B} (f : A -> M B) (l : list A) : M (list B) :=
  match l with
  | [] => ret []
  | a :: l' => b <- f a ;; bs <- mapM f l' ;; ret (b :: bs)
  end.

(** [list(chain.from_iterable(vs))]. *)
Definition chain_from_iterable (vs : list value) : M (list value) :=
  xss <- mapM iter vs ;; ret (List.concat xss).

(** [list(chain.from_iterable([i["answer"] for i in a]))]. *)
Definition flatten_answers (a : value) : M (list value) :=
  elems <- iter a ;;
  parts <- mapM (fun i => getitem i "answer") elems ;;
  chain_from_iterable parts.

(** ** Calendar arithmetic of [datetime] *)

Definition nl : string := String (ascii_of_nat 10) EmptyString.

(** Proleptic Gregorian date [(year, month, day)] of a day count from
    1970-01-01. *)
Definition ymd_of_days (days : Z) : Z * Z * Z :=
  let z := days + 719468 in
  let era := z / 146097 in
  let doe := z - era * 146097 in
  let yoe := (doe - doe / 1460 + doe / 36524 - doe / 146096) / 365 in
  let doy := doe - (365 * yoe + yoe / 4 - yoe / 100) in
  let mp := (5 * doy + 2) / 153 in
  let d := doy - (153 * mp + 2) / 5 + 1 in
  let m := if mp <? 10 then mp + 3 else mp - 9 in
  let y := yoe + era * 400 + (if m <=? 2 then 1 else 0) in
  (y, m, d).

(** Broken-down time, as [struct tm] and [datetime] hold it. *)
Record datetime : Type := mk_datetime {
  year : Z; month : Z; day : Z; hour : Z; minute : Z; second : Z
}.

Definition datetime_of_seconds (s : Z) : datetime :=
  let '(y, m, d) := ymd_of_days (s / 86400) in
  let r := s mod 86400 in
  mk_datetime y m d (r / 3600) (r mod 3600 / 60) (r mod 60).

Definition digit (n : Z) : ascii := ascii_of_nat (48 + Z.to_nat n).

(** [%02d]-style fields of [strftime]. *)
Definition pad2 (n : Z) : string :=
  String (digit (n / 10)) (String (digit (n mod 10)) EmptyString).

Definition pad4 (n : Z) : string :=
  String (digit (n / 1000)) (String (digit (n / 100 mod 10))
    (String (digit (n / 10 mod 10)) (String (digit (n mod 10)) EmptyString))).

(** [%Y], the year with century (years 1 to 9999): four digits from the year
    1000 on; below it the C library decides whether the year is padded with
    zeros ([padded]) or printed as it is. *)
Definition year_field (padded : bool) (y : Z) : string :=
  if padded || (1000 <=? y) then pad4 y
  else if 100 <=? y then String (digit (y / 100)) (pad2 (y mod 100))
  else if 10 <=? y then pad2 y
  else String (digit y) EmptyString.

(** [dt.strftime("%d.%m.%Y %H:%M:%S")]. *)
Definition strftime (padded : bool) (dt : datetime) : string :=
  (pad2 (day dt) ++ "." ++ pad2 (month dt) ++ "." ++ year_field padded (year dt)
   ++ " " ++ pad2 (hour dt) ++ ":" ++ pad2 (minute dt) ++ ":" ++ pad2 (second dt))%string.

Definition is_digit (c : ascii) : bool :=
  let n := nat_of_ascii c in ((48 <=? n) && (n <=? 57))%nat.

Definition is_upper (c : ascii) : bool :=
  let n := nat_of_ascii c in ((65 <=? n) && (n <=? 90))%nat.

(** [s] has the shape of [pattern]: a capital letter of the pattern stands
    for one decimal digit, any other character for itself. *)
Fixpoint has_shape (pattern s : string) : bool :=
  match pattern, s with
  | EmptyString, EmptyString => true
  | String p pattern', String c s' =>
      (if is_upper p then is_digit c else Ascii.eqb p c) && has_shape pattern' s'
  | _, _ => false
  end.

(** ** Floats of the script

    [int(x)] of a [float] and the true division [a / b] of two integers, the
    only float operations the script reaches. *)

(** [int(f)]: truncation towards zero. *)
Definition float_trunc (f : spec_float) : M Z :=
  match f with
  | S754_nan => raise ValueError
  | S754_infinity _ => raise OverflowError
  | S754_zero _ => ret 0
  | S754_finite s m e =>
      let t := Z.shiftl (Z.pos m) e in ret (if s then - t else t)
  end.

(** Quotient [a / b] rounded to the nearest integer, ties to even
    ([0 <= a], [0 < b]). *)
Definition rne_div (a b : Z) : Z :=
  let q := a / b in
  let r := a mod b in
  if 2 * r <? b then q
  else if b <? 2 * r then q + 1
  else if Z.even q then q else q + 1.

(** Exponent of the binade of [n / b] ([0 < n], [0 < b]): the [e] with
    [2^52 <= n / (b * 2^e) < 2^53]. *)
Definition quotient_exponent (n b : Z) : Z :=
  let L := Z.log2 b + 1 in
  Z.log2 (n * 2 ^ L / b) - L - 52.

(** [a / b] on integers: the binary64 nearest to the exact quotient, ties to
    even, for [0 < b] and a quotient in the normal range of binary64 (every
    quotient of a [timedelta] by [10**6] is).  The result is [m * 2^e] with
    [2^52 <= m <= 2^53]. *)
Definition true_div (a b : Z) : spec_float :=
  if a =? 0 then S754_zero false
  else
    let n := Z.abs a in
    let e := quotient_exponent n b in
    let m := rne_div (n * 2 ^ Z.max 0 (- e)) (b * 2 ^ Z.max 0 e) in
    S754_finite (a <? 0) (Z.to_pos m) e.

(** The number [int(a / b)] evaluates to. *)
Definition int_true_div (a b : Z) : Z :=
  match true_div a b with
  | S754_finite s m e =>
      let t := Z.shiftl (Z.pos m) e in if s then - t else t
  | _ => 0
  end.

(** ** The time window of [get_reports] *)

Inductive unit_name : Type :=
| days | seconds | microseconds | milliseconds | minutes | hours | weeks.

(** Microseconds in one unit, as [timedelta] weighs its keyword arguments. *)
Definition us_per (unit : unit_name) : Z :=
  match unit with
  | microseconds => 1
  | milliseconds => 1000
  | seconds => 1000000
  | minutes => 60 * 1000000
  | hours => 3600 * 1000000
  | days => 86400 * 1000000
  | weeks => 7 * 86400 * 1000000
  end.

Definition us_per_day : Z := 86400 * 1000000.

(** A [timedelta] is held as its total of microseconds; a naive [datetime]
    that enters arithmetic as its microseconds since 0001-01-01T00:00:00. *)
Definition timedelta := Z.
Definition instant := Z.

Definition is_leap (y : Z) : bool :=
  (y mod 4 =? 0) && (negb (y mod 100 =? 0) || (y mod 400 =? 0)).

Definition days_before_year (y : Z) : Z :=
  let y := y - 1 in y * 365 + y / 4 - y / 100 + y / 400.

Definition days_in_month (y m : Z) : Z :=
  if m =? 2 then (if is_leap y then 29 else 28)
  else if (m =? 4) || (m =? 6) || (m =? 9) || (m =? 11) then 30 else 31.

Definition days_before_month (y m : Z) : Z :=
  fold_left (fun acc i => acc + days_in_month y (Z.of_nat i))
            (seq 1 (Z.to_nat (m - 1))) 0.

(** Ordinal of a date, 0001-01-01 being day 1. *)
Definition ymd2ord (y m d : Z) : Z :=
  days_before_year y + days_before_month y m + d.

(** [datetime(y, m, d)]. *)
Definition datetime_ymd (y m d : Z) : instant := (ymd2ord y m d - 1) * us_per_day.

Definition MAXORDINAL : Z := 3652059.
Definition datetime_max : instant := MAXORDINAL * us_per_day - 1.

(** What [datetime.utcnow()] can return. *)
Definition valid_instant (t : instant) : Prop := 0 <= t <= datetime_max.

(** [timedelta] called with the one keyword [unit] set to [amount]: the day
    count is limited in magnitude. *)
Definition timedelta_of (unit : unit_name) (amount : Z) : M timedelta :=
  let us := amount * us_per unit in
  if Z.abs (us / us_per_day) <=? 999999999 then ret us else raise OverflowError.

(** [d - td]. *)
Definition datetime_sub_timedelta (d : instant) (td : timedelta) : M instant :=
  let r := d - td in
  if (0 <=? r) && (r <=? datetime_max) then ret r else raise OverflowError.

(** [d1 - d2]. *)
Definition datetime_sub (d1 d2 : instant) : timedelta := d1 - d2.

(** [td.total_seconds()]. *)
Definition total_seconds (td : timedelta) : spec_float := true_div td (10 ^ 6).

(** Lines 94-97 of [get_reports]: the value of [start_from]. *)
Definition start_from (utcnow : instant) (unit : unit_name) (amount : Z) : M Z :=
  let epoch := datetime_ymd 1970 1 1 in
  td <- timedelta_of unit amount ;;
  d <- datetime_sub_timedelta utcnow td ;;
  float_trunc (total_seconds (datetime_sub d epoch)).

(** ** The request of [get_reports] *)

Record request : Type := mk_request {
  header_key : string;         (* X-NSONE-Key *)
  param_start : Z;
  param_limit : Z;
  param_export : option string
}.

(** A response of the API: [json] is [None] where [r.json()] raises. *)
Record response : Type := mk_response {
  status_code : Z;
  content : string;
  json : option value
}.

(** What [get_reports] hands back: the bytes of an export or an object. *)
Inductive report : Type :=
| Content (bytes : string)
| Object (v : value).

Section Fetch.

(** The clock and the network of one call: [s.get] answers or raises. *)
Variable utcnow : instant.
Variable session_get : request -> response + exn.

(** [r.json()]. *)
Definition response_json (r : response) : M value :=
  match json r with
  | Some v => ret v
  | None => raise ValueError
  end.

Definition get_reports (api_key : string) (unit : unit_name) (amount limit : Z)
    (export : bool) (fmt : string) : M report :=
  start <- start_from utcnow unit amount ;;
  let params := mk_request api_key start limit (if export then Some fmt else None) in
  r <- match session_get params with
       | inl r => ret r
       | inr e => logging (ErrorExn e) ;;; sys_exit e
       end ;;
  if status_code r =? 200
  then if export then ret (Content (content r))
       else v <- response_json r ;; ret (Object v)
  else body <- response_json r ;;
       logging (ErrorBody body) ;;;
       body' <- response_json r ;;
       msg <- get body' "message" ;;
       ret (Object msg).

End Fetch.

(** ** The platform

    What the script takes from its environment: the zone rule of the host
    ([utcoffset t] is the local offset from UTC, in seconds, at instant [t]),
    whether its C library pads the years below 1000, Python's parser of
    integer literals ([int_of_str s] is [None] where [int(s)] raises
    [ValueError]) and PyYAML's block-style printer. *)

Class Platform : Type := {
  utcoffset : Z -> Z;
  pads_year : bool;
  int_of_str : string -> option Z;
  yaml_dump : dict -> string
}.

Section Normalizer.

Context {P : Platform}.

(** [int(v)]. *)
Definition int (v : value) : M Z :=
  match v with
  | PInt n => ret n
  | PBool b => ret (if b then 1 else 0)
  | PFloat f => float_trunc f
  | PStr s =>
      match int_of_str s with
      | Some n => ret n
      | None => raise ValueError
      end
  | PNone | PList _ | PDict _ => raise TypeError
  end.

(** [localtime] of the C library: the year has to fit the [tm_year] field. *)
Definition localtime (t : Z) : M datetime :=
  let dt := datetime_of_seconds (t + utcoffset t) in
  if (- 2 ^ 31 <=? year dt - 1900) && (year dt - 1900 <? 2 ^ 31)
  then ret dt else raise OSError.

(** The range of years a [datetime] holds. *)
Definition check_year (dt : datetime) : M unit :=
  if (1 <=? year dt) && (year dt <=? 9999) then ret tt else raise ValueError.

(** [datetime.fromtimestamp(t)] for an integer [t]: the instant has to fit the
    platform's [time_t]; its local time and, for the detection of a repeated
    hour, the local time a day earlier have to be in the [datetime] range. *)
Definition fromtimestamp (t : Z) : M datetime :=
  if negb ((- 2 ^ 63 <=? t) && (t <? 2 ^ 63)) then raise OverflowError
  else
    dt <- localtime t ;;
    check_year dt ;;;
    probe <- localtime (t - 86400) ;;
    check_year probe ;;;
    ret dt.

Definition convert_timestamp (timestamp : value) : M string :=
  n <- int timestamp ;;
  dt_object <- fromtimestamp n ;;
  ret (strftime pads_year dt_object).

(** [item["resource"].get(k)]. *)
Definition resource_get (item : value) (k : string) : M value :=
  r <- getitem item "resource" ;; get r k.

(** The body of the [try] of [parse_reports] between [result = {}] and the
    call of [yaml.dump]: the entry built for one record. *)
Definition build_result (item : value) : M dict :=
  let result := [] in
  user_name <- get item "user_name" ;;
  let result := dict_setitem "user_name" user_name result in
  user_id <- get item "user_id" ;;
  let result := dict_setitem "user_id" user_id result in
  zone <- get item "zone" ;;
  result <- (if truthy zone
             then z <- resource_get item "zone" ;;
                  ret (dict_setitem "zone" z result)
             else ret result) ;;
  timestamp <- get item "timestamp" ;;
  time <- convert_timestamp timestamp ;;
  let result := dict_setitem "time" (PStr time) result in
  action <- get item "action" ;;
  let result := dict_setitem "action" action result in
  ty <- resource_get item "type" ;;
  result <- (if truthy ty
             then ty' <- resource_get item "type" ;;
                  ret (dict_setitem "type" ty' result)
             else ret result) ;;
  domain <- resource_get item "domain" ;;
  result <- (if truthy domain
             then domain' <- resource_get item "domain" ;;
                  ret (dict_setitem "domain" domain' result)
             else ret result) ;;
  answers <- resource_get item "answers" ;;
  if truthy answers
  then r <- getitem item "resource" ;;
       a <- getitem r "answers" ;;
       flat <- flatten_answers a ;;
       ret (dict_setitem "answers" (PList flat) result)
  else r <- get item "resource" ;;
       ret (dict_setitem "resource" r result).

(** One turn of the loop: [output] is the list being built. *)
Definition parse_item (item : value) (output : list string) : M (list string) :=
  logging (DebugItem item) ;;;
  try_except_KeyError
    (let output := output ++ [("---" ++ nl)%string] in
     result <- build_result item ;;
     let output := output ++ [yaml_dump result] in
     ret (output ++ [nl]))
    (fun k => logging (ErrorItem item) ;;; sys_exit (KeyError k)).

Fixpoint for_items (items : list value) (output : list string) : M (list string) :=
  match items with
  | [] => ret output
  | item :: rest => output' <- parse_item item output ;; for_items rest output'
  end.

Definition parse_reports (reports : value) : M string :=
  let output := [] in
  n <- len reports ;;
  output <- (if negb (n =? -1)
             then items <- iter reports ;; for_items items output
             else ret output) ;;
  ret (String.concat "" output).

End Normalizer.

(** ** Closed form of an entry and sample records *)

Definition optional_key (k : string) (present : bool) (v : value) : dict :=
  if present then [(k, v)] else [].

(** The entry of a record with top-level fields [d] and resource [rd], given
    the formatted time and the flattened answers. *)
Definition entry_of (d rd : dict) (time : string) (flat : list value) : dict :=
  [("user_name", dict_get "user_name" d); ("user_id", dict_get "user_id" d)]
  ++ optional_key "zone" (truthy (dict_get "zone" d)) (dict_get "zone" rd)
  ++ [("time", PStr time); ("action", dict_get "action" d)]
  ++ optional_key "type" (truthy (dict_get "type" rd)) (dict_get "type" rd)
  ++ optional_key "domain" (truthy (dict_get "domain" rd)) (dict_get "domain" rd)
  ++ (if truthy (dict_get "answers" rd)
      then [("answers", PList flat)]
      else [("resource", PDict rd)]).

(** The record of the specification's example. *)
Definition sample_resource : dict :=
  [("domain", PStr "example.com"); ("type", PStr "A");
   ("answers", PList [PDict [("answer", PList [PStr "1.2.3.4"])];
                      PDict [("answer", PList [PStr "5.6.7.8"])]])].

Definition sample_record : value :=
  PDict [("user_name", PStr "a"); ("user_id", PInt 1);
         ("timestamp", PInt 1700000000); ("action", PStr "add_record");
         ("resource", PDict sample_resource)].

(** A zone-level record: its resource has a type and a domain but no
    answers. *)
Definition typed_record : value :=
  PDict [("user_name", PStr "a"); ("user_id", PInt 1);
         ("timestamp", PInt 1700000000); ("action", PStr "delete_record");
         ("resource", PDict [("type", PStr "A"); ("domain", PStr "example.com")])].

(** A record of a zone change: [zone] at the top level and in the resource. *)
Definition zone_record : value :=
  PDict [("user_name", PStr "a"); ("user_id", PInt 1);
         ("zone", PStr "example.com"); ("timestamp", PInt 1700000000);
         ("action", PStr "update_zone");
         ("resource", PDict [("zone", PStr "example.org"); ("ttl", PInt 3600)])].

(** A record without [timestamp]. *)
Definition untimed_record : value :=
  PDict [("user_name", PStr "a"); ("user_id", PInt 1);
         ("action", PStr "add_record"); ("resource", PDict sample_resource)].

(** A record of top-level fields only. *)
Definition bare_record : value :=
  PDict [("user_name", PStr "a"); ("user_id", PInt 1);
         ("timestamp", PInt 1700000000); ("action", PStr "login")].

(** Answers of the API to a request: a gateway's error page, an error whose
    body is a JSON list, and an error object with a message. *)
Definition gateway_page (_ : request) : response + exn :=
  inl (mk_response 502 "<html>Bad Gateway</html>" None).

Definition error_list (_ : request) : response + exn :=
  inl (mk_response 500 "[]" (Some (PList []))).

Definition unauthorized (_ : request) : response + exn :=
  inl (mk_response 401 "{'message': 'Unauthorized'}"
         (Some (PDict [("message", PStr "Unauthorized")]))).

(** A platform on UTC that reads no string as an integer and prints every
    entry as the empty text. *)
Definition utc_platform : Platform :=
  {| utcoffset := fun _ => 0;
     pads_year := false;
     int_of_str := fun _ => None;
     yaml_dump := fun _ => "" |}.

(** ** The text of a report and the main part of the script *)

Section Report.

Context {P : Platform}.

(** What one entry adds to [output]: the separator, its YAML text and a
    blank line. *)
Definition entry_lines (e : dict) : list string :=
  [("---" ++ nl)%string; yaml_dump e; nl].

(** The report of a list of entries. *)
Definition report_text (entries : list dict) : string :=
  String.concat "" (flat_map entry_lines entries).

End Report.

(** Seconds from 1970-01-01T00:00:00 of a broken-down time, by the ordinal of
    its date. *)
Definition seconds_of_datetime (dt : datetime) : Z :=
  (ymd2ord (year dt) (month dt) (day dt) - ymd2ord 1970 1 1) * 86400
  + hour dt * 3600 + minute dt * 60 + second dt.

(** The fields of a time of day and of a date in range. *)
Definition fields_in_range (dt : datetime) : Prop :=
  1 <= year dt <= 9999 /\ 1 <= month dt <= 12 /\ 1 <= day dt <= 31 /\
  0 <= hour dt <= 23 /\ 0 <= minute dt <= 59 /\ 0 <= second dt <= 59.

(** The object [parse_args] returns: one attribute per declared option. *)
Record namespace : Type := mk_namespace {
  arg_unit : unit_name;
  arg_amount : Z;
  arg_limit : Z;
  arg_config : string;
  arg_export : bool;
  arg_format : string;
  arg_mailfrom : option string;
  arg_mailto : option string;
  arg_silent : bool
}.

Definition unit_text (u : unit_name) : string :=
  match u with
  | days => "days"
  | seconds => "seconds"
  | microseconds => "microseconds"
  | milliseconds => "milliseconds"
  | minutes => "minutes"
  | hours => "hours"
  | weeks => "weeks"
  end.

Definition optional_str (o : option string) : value :=
  match o with
  | Some s => PStr s
  | None => PNone
  end.

(** [args.name]: an attribute the parser did not declare is an
    [AttributeError]. *)
Definition getattr (args : namespace) (name : string) : M value :=
  if (name =? "unit")%string then ret (PStr (unit_text (arg_unit args)))
  else if (name =? "amount")%string then ret (PInt (arg_amount args))
  else if (name =? "limit")%string then ret (PInt (arg_limit args))
  else if (name =? "config")%string then ret (PStr (arg_config args))
  else if (name =? "export")%string then ret (PBool (arg_export args))
  else if (name =? "format")%string then ret (PStr (arg_format args))
  else if (name =? "mailfrom")%string then ret (optional_str (arg_mailfrom args))
  else if (name =? "mailto")%string then ret (optional_str (arg_mailto args))
  else if (name =? "silent")%string then ret (PBool (arg_silent args))
  else raise AttributeError.

(** What the main part does, in order: the calls of [logging] and the
    lines printed. *)
Inductive event : Type :=
| Logged (r : log_record)
| LoggedParams (api_key : string) (args : namespace)
                                     (* logging.debug(f"report_params = ...") *)
| LoggedReport (r : report)          (* logging.debug(f"report = {report}") *)
| Printed (x : report).              (* print(x) *)

(** The monad of the main part: as [M], over the events. *)
Definition W (A : Type) : Type := list event -> result A * list event.

Definition retW {A} (a : A) : W A := fun t => (Return a, t).

Definition bindW {A B} (m : W A) (f : A -> W B) : W B :=
  fun t =>
    match m t with
    | (Return a, t') => f a t'
    | (Raise e, t') => (Raise e, t')
    | (Exit e, t') => (Exit e, t')
    end.

Definition emit (e : event) : W unit := fun t => (Return tt, t ++ [e]).

(** A call of a function of the script: the records it logs follow the
    events so far. *)
Definition call {A} (m : M A) : W A :=
  fun t => let (r, l) := m [] in (r, t ++ map Logged l).

Declare Scope main_scope.
Delimit Scope main_scope with main.
Notation "x <~ m ;; k" := (bindW m (fun x => k))
  (at level 61, m at next level, right associativity) : main_scope.
Notation "m ;;~ k" := (bindW m (fun _ => k))
  (at level 61, right associativity) : main_scope.

Section Main.

Context {P : Platform}.

(** The clock and the network, the decoder of UTF-8 ([None] where the bytes
    are not UTF-8), and what follows [args.header] in the statement that
    builds [mail_params] and calls [send_mail]. *)
Variable utcnow : instant.
Variable session_get : request -> response + exn.
Variable decode_utf8 : string -> option string.
Variable mail_rest : value -> W unit.

(** [parse_reports(report)]: the bytes of an export are a sequence of
    integers. *)
Definition parse_reports_of (report : report) : M string :=
  match report with
  | Object v => parse_reports v
  | Content EmptyString => ret ""
  | Content (String c _) =>
      logging (DebugItem (PInt (Z.of_nat (nat_of_ascii c)))) ;;;
      raise AttributeError
  end.

(** [x.decode("utf-8")]: only [bytes] have the method. *)
Definition decode (x : report) : M string :=
  match x with
  | Content b =>
      match decode_utf8 b with
      | Some s => ret s
      | None => raise ValueError
      end
  | Object _ => raise AttributeError
  end.

(** [len(x)]. *)
Definition len_of (x : report) : M Z :=
  match x with
  | Content b => ret (Z.of_nat (String.length b))
  | Object v => len v
  end.

Definition is_set (o : option string) : bool := truthy (optional_str o).

(** Lines 214 to 252, given the namespace of the arguments and the API key
    read from the configuration. *)
Definition main_body (args : namespace) (api_key : string) : W unit :=
  (emit (LoggedParams api_key args) ;;~
   report <~ call (get_reports utcnow session_get api_key (arg_unit args)
                     (arg_amount args) (arg_limit args) (arg_export args)
                     (arg_format args)) ;;
   emit (LoggedReport report) ;;~
   parsed_reports <~ (if negb (arg_export args)
                      then s <~ call (parse_reports_of report) ;;
                           retW (Object (PStr s))
                      else retW report) ;;
   (if negb (is_set (arg_mailto args)) || arg_silent args
    then x <~ (if negb (arg_export args) then retW parsed_reports
               else s <~ call (decode parsed_reports) ;; retW (Object (PStr s))) ;;
         emit (Printed x)
    else retW tt) ;;~
   if is_set (arg_mailto args)
   then n <~ call (len_of parsed_reports) ;;
        if negb (n =? 0)
        then header <~ call (getattr args "header") ;; mail_rest header
        else retW tt
   else retW tt)%main.

End Main.

(** ** Sample inputs of the further properties *)

(** The top-level fields of [sample_record] and its entry on UTC. *)
Definition sample_fields : dict :=
  [("user_name", PStr "a"); ("user_id", PInt 1);
   ("timestamp", PInt 1700000000); ("action", PStr "add_record");
   ("resource", PDict sample_resource)].

Definition sample_entry : dict :=
  [("user_name", PStr "a"); ("user_id", PInt 1);
   ("time", PStr "14.11.2023 22:13:20"); ("action", PStr "add_record");
   ("type", PStr "A"); ("domain", PStr "example.com");
   ("answers", PList [PStr "1.2.3.4"; PStr "5.6.7.8"])].

(** A record whose second answer has no [answer]. *)
Definition broken_resource : dict :=
  [("answers", PList [PDict [("answer", PList [PStr "1.2.3.4"])];
                      PDict [("ttl", PInt 60)]])].

Definition broken_fields : dict :=
  [("user_name", PStr "a"); ("user_id", PInt 1);
   ("timestamp", PInt 1700000000); ("action", PStr "add_record");
   ("resource", PDict broken_resource)].

(** A platform one hour ahead of UTC until second 1000 and on UTC from then
    on: the local hour from 00:16:40 to 01:16:40 of 1 January 1970 is passed
    twice. *)
Definition fold_platform : Platform :=
  {| utcoffset := fun t => if t <? 1000 then 3600 else 0;
     pads_year := false;
     int_of_str := fun _ => None;
     yaml_dump := fun _ => "" |}.

(** Answers of the API of status 200, to an export and to a query, and a
    network that cannot be reached. *)
Definition export_ok (_ : request) : response + exn :=
  inl (mk_response 200 "user,action" None).

Definition records_ok (_ : request) : response + exn :=
  inl (mk_response 200 "[...]" (Some (PList [sample_record]))).

Definition unreachable (_ : request) : response + exn :=
  inr (ConnectionError "Name or service not known").

(** The namespace of a run without arguments, of one with [--mailto], and of
    an export as CSV. *)
Definition default_args : namespace :=
  mk_namespace hours 1 20 "~/.nsone_reports.ini" false "json" None None false.



(** Bytes of ASCII are their own text. *)
Definition ascii_text (b : string) : option string := Some b.

(** Nothing more to do after [args.header]. *)
Definition no_mail (_ : value) : W unit := retW tt.

(** * Properties *)

(** ** Rounding and truncation of the true division *)

Lemma rne_div_mono (a1 a2 b : Z) :
  0 < b -> a1 <= a2 -> rne_div a1 b <= rne_div a2 b.
Proof.
  intros Hb Ha. unfold rne_div.
  pose proof (Z.div_mod a1 b ltac:(lia)) as E1.
  pose proof (Z.div_mod a2 b ltac:(lia)) as E2.
  pose proof (Z.mod_pos_bound a1 b Hb) as B1.
  pose proof (Z.mod_pos_bound a2 b Hb) as B2.
  pose proof (Z.div_le_mono a1 a2 b Hb Ha) as Hq.
  assert (Hcase : a1 / b < a2 / b \/ (a1 / b = a2 / b /\ a1 mod b <= a2 mod b)).
  { destruct (Z.eq_dec (a1 / b) (a2 / b)) as [e | ne]; [right | left; lia].
    split; [exact e | rewrite e in E1; lia]. }
  destruct Hcase as [Hlt | [Heq Hr]].
  - repeat match goal with
           | |- context [if ?c then _ else _] => destruct c eqn:?
           end; lia.
  - rewrite Heq.
    repeat match goal with
           | |- context [if ?c then _ else _] => destruct c eqn:?
           end; lia.
Qed.

Lemma rne_div_exact (k b : Z) : 0 < b -> rne_div (k * b) b = k.
Proof.
  intros Hb. unfold rne_div.
  rewrite Z.div_mul by lia. rewrite Z.mod_mul by lia.
  destruct (2 * 0 <? b) eqn:E; [reflexivity | lia].
Qed.

Lemma rne_div_bounds (lo hi a b : Z) :
  0 < b -> lo * b <= a <= hi * b -> lo <= rne_div a b <= hi.
Proof.
  intros Hb [Hlo Hhi]. split.
  - rewrite <- (rne_div_exact lo b Hb). now apply rne_div_mono.
  - rewrite <- (rne_div_exact hi b Hb). now apply rne_div_mono.
Qed.

Section QuotientExponent.

Variables n b : Z.
Hypothesis Hn : 0 < n.
Hypothesis Hb : 0 < b.
Hypothesis Hrange : n < 2 ^ 52 * b.

Let L := Z.log2 b + 1.
Let X := n * 2 ^ L / b.
Let j := Z.log2 X.

Lemma quotient_scaled_pos : 1 <= X /\ 0 < L.
Proof.
  assert (HL : 0 < L) by (pose proof (Z.log2_nonneg b); subst L; lia).
  split; [| exact HL].
  assert (Hp : b < 2 ^ L).
  { destruct (Z.log2_spec b Hb) as [_ Hlt]. subst L.
    replace (Z.log2 b + 1) with (Z.succ (Z.log2 b)) by lia. exact Hlt. }
  subst X. apply Z.div_le_lower_bound; [lia |]. nia.
Qed.

Lemma quotient_log_bounds :
  0 <= j /\ 2 ^ j * b <= n * 2 ^ L /\ n * 2 ^ L < 2 ^ (j + 1) * b /\ j < 52 + L.
Proof.
  destruct quotient_scaled_pos as [HX HL].
  assert (Hj : 0 <= j) by apply Z.log2_nonneg.
  destruct (Z.log2_spec X ltac:(lia)) as [Hlo Hhi]. fold j in Hlo, Hhi.
  replace (Z.succ j) with (j + 1) in Hhi by lia.
  pose proof (Z.mul_div_le (n * 2 ^ L) b Hb) as Hd1.
  pose proof (Z.mul_succ_div_gt (n * 2 ^ L) b Hb) as Hd2.
  fold X in Hd1, Hd2.
  assert (H2L : 0 < 2 ^ L) by (apply Z.pow_pos_nonneg; lia).
  repeat split; try assumption; try nia.
  assert (HXlt : X < 2 ^ (52 + L)).
  { subst X. apply Z.div_lt_upper_bound; [lia |].
    rewrite Z.pow_add_r by lia. nia. }
  apply Z.log2_lt_pow2; lia.
Qed.

Lemma quotient_exponent_spec :
  quotient_exponent n b < 0 /\
  2 ^ 52 * b <= n * 2 ^ (- quotient_exponent n b) < 2 ^ 53 * b.
Proof.
  destruct quotient_scaled_pos as [HX HL].
  destruct quotient_log_bounds as (Hj & Hlo & Hhi & HjL).
  assert (He : quotient_exponent n b = j - L - 52) by reflexivity.
  rewrite He. split; [lia |].
  replace (- (j - L - 52)) with (52 + L - j) by lia.
  set (s := 52 + L - j) in *.
  assert (Hs : 0 < s) by (subst s; lia).
  assert (H2L : 0 < 2 ^ L) by (apply Z.pow_pos_nonneg; lia).
  assert (H2s : 0 < 2 ^ s) by (apply Z.pow_pos_nonneg; lia).
  assert (E1 : 2 ^ j * 2 ^ s = 2 ^ 52 * 2 ^ L).
  { rewrite <- !Z.pow_add_r by lia. f_equal. subst s. lia. }
  assert (E2 : 2 ^ (j + 1) * 2 ^ s = 2 ^ 53 * 2 ^ L).
  { rewrite <- !Z.pow_add_r by lia. f_equal. subst s. lia. }
  split.
  - apply (Z.mul_le_mono_pos_r _ _ (2 ^ L) H2L).
    replace (2 ^ 52 * b * 2 ^ L) with (2 ^ j * 2 ^ s * b) by (rewrite E1; ring).
    replace (n * 2 ^ s * 2 ^ L) with (n * 2 ^ L * 2 ^ s) by ring.
    replace (2 ^ j * 2 ^ s * b) with (2 ^ j * b * 2 ^ s) by ring.
    apply Z.mul_le_mono_nonneg_r; lia.
  - apply (Z.mul_lt_mono_pos_r (2 ^ L) _ _ H2L).
    replace (2 ^ 53 * b * 2 ^ L) with (2 ^ (j + 1) * 2 ^ s * b) by (rewrite E2; ring).
    replace (n * 2 ^ s * 2 ^ L) with (n * 2 ^ L * 2 ^ s) by ring.
    replace (2 ^ (j + 1) * 2 ^ s * b) with (2 ^ (j + 1) * b * 2 ^ s) by ring.
    apply Z.mul_lt_mono_pos_r; lia.
Qed.

End QuotientExponent.

Lemma quotient_exponent_mono (n1 n2 b : Z) :
  0 < b -> 0 < n1 <= n2 -> quotient_exponent n1 b <= quotient_exponent n2 b.
Proof.
  intros Hb Hn. unfold quotient_exponent.
  assert (H2L : 0 < 2 ^ (Z.log2 b + 1)).
  { apply Z.pow_pos_nonneg; [lia |]. pose proof (Z.log2_nonneg b). lia. }
  assert (Z.log2 (n1 * 2 ^ (Z.log2 b + 1) / b) <= Z.log2 (n2 * 2 ^ (Z.log2 b + 1) / b)).
  { apply Z.log2_le_mono. apply Z.div_le_mono; [lia | nia]. }
  lia.
Qed.

Lemma float_trunc_true_div (a b : Z) :
  float_trunc (true_div a b) = ret (int_true_div a b).
Proof.
  unfold int_true_div, true_div. destruct (a =? 0); reflexivity.
Qed.

(** On a positive dividend the truncated quotient is the rounded mantissa
    shifted back by its exponent. *)
Lemma int_true_div_pos (n b : Z) :
  0 < n -> 0 < b -> n < 2 ^ 52 * b ->
  let s := - quotient_exponent n b in
  let m := rne_div (n * 2 ^ s) b in
  0 < s /\ 2 ^ 52 <= m <= 2 ^ 53 /\ int_true_div n b = m / 2 ^ s.
Proof.
  intros Hn Hb Hr s m.
  destruct (quotient_exponent_spec n b Hn Hb Hr) as [He [Hlo Hhi]].
  fold s in Hlo, Hhi.
  assert (Hs : 0 < s) by (subst s; lia).
  assert (Hm : 2 ^ 52 <= m <= 2 ^ 53).
  { subst m. apply rne_div_bounds; lia. }
  repeat split; try lia.
  unfold int_true_div, true_div.
  destruct (n =? 0) eqn:E0; [lia |].
  rewrite (Z.abs_eq n) by lia.
  replace (Z.max 0 (- quotient_exponent n b)) with s by (subst s; lia).
  replace (Z.max 0 (quotient_exponent n b)) with 0 by lia.
  rewrite Z.pow_0_r, Z.mul_1_r. fold m.
  destruct (n <? 0) eqn:En; [lia |].
  rewrite Z2Pos.id by lia.
  replace (quotient_exponent n b) with (- s) by (subst s; lia).
  change (Z.shiftl m (- s)) with (Z.shiftr m s).
  apply Z.shiftr_div_pow2. lia.
Qed.

Lemma int_true_div_nonneg (n b : Z) :
  0 < n -> 0 < b -> n < 2 ^ 52 * b -> 0 <= int_true_div n b.
Proof.
  intros Hn Hb Hr.
  destruct (int_true_div_pos n b Hn Hb Hr) as (Hs & Hm & ->).
  apply Z.div_pos; [lia | apply Z.pow_pos_nonneg; lia].
Qed.

Lemma int_true_div_mono_pos (n1 n2 b : Z) :
  0 < b -> 0 < n1 <= n2 -> n2 < 2 ^ 52 * b ->
  int_true_div n1 b <= int_true_div n2 b.
Proof.
  intros Hb [Hn1 Hle] Hr.
  destruct (int_true_div_pos n1 b Hn1 Hb ltac:(lia)) as (Hs1 & Hm1 & ->).
  destruct (int_true_div_pos n2 b ltac:(lia) Hb Hr) as (Hs2 & Hm2 & ->).
  pose proof (quotient_exponent_mono n1 n2 b Hb ltac:(lia)) as He.
  set (s1 := - quotient_exponent n1 b) in *.
  set (s2 := - quotient_exponent n2 b) in *.
  assert (Hs : s2 <= s1) by (subst s1 s2; lia).
  assert (P1 : 0 < 2 ^ s1) by (apply Z.pow_pos_nonneg; lia).
  assert (P2 : 0 < 2 ^ s2) by (apply Z.pow_pos_nonneg; lia).
  destruct (Z.eq_dec s1 s2) as [Heq | Hne].
  - rewrite Heq. apply Z.div_le_mono; [lia |].
    apply rne_div_mono; [lia |]. nia.
  - assert (E : 2 ^ s1 = 2 ^ (s1 - s2 - 1) * (2 * 2 ^ s2)).
    { replace (2 * 2 ^ s2) with (2 ^ (1 + s2)) by (rewrite Z.pow_add_r by lia; reflexivity).
      rewrite <- Z.pow_add_r by lia. f_equal. lia. }
    assert (P3 : 0 < 2 ^ (s1 - s2 - 1)) by (apply Z.pow_pos_nonneg; lia).
    apply Z.le_trans with (2 ^ 53 / 2 ^ s1).
    { apply Z.div_le_mono; lia. }
    apply Z.le_trans with (2 ^ 52 / 2 ^ s2).
    2:{ apply Z.div_le_mono; lia. }
    apply Z.le_trans with (2 ^ 53 / (2 * 2 ^ s2)).
    { apply Z.div_le_compat_l; [lia |]. split; [lia |]. rewrite E. nia. }
    rewrite <- Z.div_div by lia.
    change (2 ^ 53 / 2) with (2 ^ 52). lia.
Qed.

(** [int(a / b)] does not decrease when [a] grows, as long as the quotient
    stays below [2^52] in magnitude. *)
Lemma int_true_div_mono (a1 a2 b : Z) :
  0 < b -> a1 <= a2 -> - (2 ^ 52 * b) < a1 -> a2 < 2 ^ 52 * b ->
  int_true_div a1 b <= int_true_div a2 b.
Proof.
  intros Hb Hle Hlo Hhi.
  assert (Hneg : forall a, a < 0 -> int_true_div a b = - int_true_div (- a) b).
  { intros a Ha. unfold int_true_div, true_div.
    destruct (a =? 0) eqn:E1; [lia |]. destruct (- a =? 0) eqn:E2; [lia |].
    rewrite Z.abs_opp.
    destruct (a <? 0) eqn:E3; [| lia]. destruct (- a <? 0) eqn:E4; [lia |].
    reflexivity. }
  assert (Hzero : int_true_div 0 b = 0) by reflexivity.
  destruct (Z.lt_trichotomy a1 0) as [N1 | [Z1 | P1]];
    destruct (Z.lt_trichotomy a2 0) as [N2 | [Z2 | P2]]; subst; try lia.
  - rewrite (Hneg a1 N1), (Hneg a2 N2).
    pose proof (int_true_div_mono_pos (- a2) (- a1) b Hb ltac:(lia) ltac:(lia)). lia.
  - rewrite (Hneg a1 N1), Hzero.
    pose proof (int_true_div_nonneg (- a1) b ltac:(lia) Hb ltac:(lia)). lia.
  - rewrite (Hneg a1 N1).
    pose proof (int_true_div_nonneg (- a1) b ltac:(lia) Hb ltac:(lia)).
    pose proof (int_true_div_nonneg a2 b ltac:(lia) Hb ltac:(lia)). lia.
  - rewrite Hzero. apply int_true_div_nonneg; lia.
  - apply int_true_div_mono_pos; lia.
Qed.

(** Below [2^33] the quotient by [10**6] is computed without error in its
    integer part: [int(a / 10**6)] is the floor. *)
Lemma int_true_div_exact (a : Z) :
  0 <= a < 2 ^ 33 * 10 ^ 6 -> int_true_div a (10 ^ 6) = a / 10 ^ 6.
Proof.
  intros [H0 H1].
  destruct (Z.eq_dec a 0) as [-> | Hnz]; [reflexivity |].
  assert (Hb : 0 < 10 ^ 6) by lia.
  destruct (int_true_div_pos a (10 ^ 6) ltac:(lia) Hb ltac:(lia)) as (Hs & Hm & ->).
  destruct (quotient_exponent_spec a (10 ^ 6) ltac:(lia) Hb ltac:(lia)) as (_ & Hlo & Hhi).
  set (s := - quotient_exponent a (10 ^ 6)) in *.
  assert (Ps : 0 < 2 ^ s) by (apply Z.pow_pos_nonneg; lia).
  assert (Hs20 : 20 <= s).
  { destruct (Z_lt_le_dec s 20) as [Hlt | Hge]; [| exact Hge].
    assert (2 ^ s <= 2 ^ 19) by (apply Z.pow_le_mono_r; lia). nia. }
  assert (Hbig : 10 ^ 6 <= 2 ^ s).
  { apply Z.le_trans with (2 ^ 20); [lia |]. apply Z.pow_le_mono_r; lia. }
  set (q := a / 10 ^ 6).
  pose proof (Z.mul_div_le a (10 ^ 6) Hb) as Q1.
  pose proof (Z.mul_succ_div_gt a (10 ^ 6) Hb) as Q2.
  fold q in Q1, Q2.
  assert (Hq : q * 2 ^ s <= rne_div (a * 2 ^ s) (10 ^ 6) <= (q + 1) * 2 ^ s - 1).
  { apply rne_div_bounds; [lia |]. split; nia. }
  symmetry. apply Z.div_unique with (r := rne_div (a * 2 ^ s) (10 ^ 6) - q * 2 ^ s).
  - left. lia.
  - ring.
Qed.

(** ** A whole unit is never rounded away *)

(** The rounded quotient is within half a unit of the exact one. *)
Lemma rne_div_near (a b : Z) :
  0 < b -> - b <= 2 * (a - rne_div a b * b) <= b.
Proof.
  intros Hb. unfold rne_div.
  pose proof (Z.div_mod a b ltac:(lia)) as E.
  pose proof (Z.mod_pos_bound a b Hb) as B.
  repeat match goal with
         | |- context [if ?c then _ else _] => destruct c eqn:?
         end;
    repeat match goal with
           | H : (_ <? _) = true |- _ => apply Z.ltb_lt in H
           | H : (_ <? _) = false |- _ => apply Z.ltb_ge in H
           end; nia.
Qed.

(** A dividend at most half a unit below an even multiple is rounded up to
    it. *)
Lemma rne_div_up (k d b : Z) :
  0 < b -> 0 <= 2 * d <= b -> Z.even k = true -> rne_div (k * b - d) b = k.
Proof.
  intros Hb Hd Hk.
  destruct (Z.eq_dec d 0) as [-> | Hnz].
  { rewrite Z.sub_0_r. now apply rne_div_exact. }
  assert (Hq : (k * b - d) / b = k - 1).
  { symmetry. apply Z.div_unique with (r := b - d); [left; lia | ring]. }
  assert (Hr : (k * b - d) mod b = b - d).
  { symmetry. apply Z.mod_unique with (q := k - 1); [left; lia | ring]. }
  unfold rne_div. rewrite Hq, Hr.
  destruct (2 * (b - d) <? b) eqn:E1; [apply Z.ltb_lt in E1; lia |].
  destruct (b <? 2 * (b - d)) eqn:E2; [lia |].
  replace (k - 1) with (Z.pred k) by lia.
  rewrite Z.even_pred, <- Z.negb_even, Hk. cbn. lia.
Qed.

(** [int(a / b)] of a multiple of [b] is the multiple. *)
Lemma int_true_div_multiple (k b : Z) :
  0 < b -> 0 <= k < 2 ^ 52 -> int_true_div (k * b) b = k.
Proof.
  intros Hb [Hk0 Hk1].
  destruct (Z.eq_dec k 0) as [-> | Hnz]; [reflexivity |].
  destruct (int_true_div_pos (k * b) b ltac:(nia) Hb ltac:(nia)) as (Hs & Hm & ->).
  set (s := - quotient_exponent (k * b) b) in *.
  replace (k * b * 2 ^ s) with (k * 2 ^ s * b) by ring.
  rewrite rne_div_exact by lia.
  apply Z.div_mul. apply Z.pow_nonzero; lia.
Qed.

(** One more unit in the exact quotient is at least one more in
    [int(a / b)]: the rounding of the binary64 quotient cannot swallow a
    whole unit below [2^52]. *)
Lemma int_true_div_step (n b : Z) :
  0 < b -> 0 <= n -> n + b < 2 ^ 52 * b ->
  int_true_div n b + 1 <= int_true_div (n + b) b.
Proof.
  intros Hb Hn Hr.
  destruct (Z.eq_dec n 0) as [-> | Hnz].
  { replace (0 + b) with (1 * b) by ring.
    rewrite int_true_div_multiple by lia. change (int_true_div 0 b) with 0. lia. }
  set (q := int_true_div n b).
  assert (Hq0 : 0 <= q) by (apply int_true_div_nonneg; lia).
  destruct (Z_le_gt_dec (q * b) n) as [HA | HB].
  - (* the quotient was not rounded up past an integer *)
    replace (q + 1) with (int_true_div ((q + 1) * b) b)
      by (apply int_true_div_multiple; nia).
    apply int_true_div_mono_pos; nia.
  - (* it was: so is the quotient one unit further *)
    subst q.
    destruct (int_true_div_pos n b ltac:(lia) Hb ltac:(lia)) as (Hs & Hm & Eq).
    destruct (int_true_div_pos (n + b) b ltac:(lia) Hb Hr) as (Hs' & Hm' & Eq').
    pose proof (quotient_exponent_mono n (n + b) b Hb ltac:(lia)) as He.
    set (s := - quotient_exponent n b) in *.
    set (s' := - quotient_exponent (n + b) b) in *.
    set (q := int_true_div n b) in *.
    assert (Hss : s' <= s) by (subst s s'; lia).
    assert (Ps : 0 < 2 ^ s) by (apply Z.pow_pos_nonneg; lia).
    assert (Ps' : 0 < 2 ^ s') by (apply Z.pow_pos_nonneg; lia).
    assert (Hpp : 2 ^ s' <= 2 ^ s) by (apply Z.pow_le_mono_r; lia).
    set (m := rne_div (n * 2 ^ s) b) in *.
    assert (Hm1 : q * 2 ^ s <= m).
    { rewrite Eq. pose proof (Z.mul_div_le m (2 ^ s) Ps). lia. }
    pose proof (rne_div_near (n * 2 ^ s) b Hb) as Hnear. fold m in Hnear.
    assert (Hd : 0 <= 2 * ((q * b - n) * 2 ^ s') <= b) by nia.
    assert (Hev : Z.even ((q + 1) * 2 ^ s') = true).
    { replace s' with (Z.succ (s' - 1)) by lia.
      rewrite Z.pow_succ_r by lia.
      replace ((q + 1) * (2 * 2 ^ (s' - 1))) with (2 * ((q + 1) * 2 ^ (s' - 1))) by ring.
      apply Z.even_mul. }
    rewrite Eq'.
    replace ((n + b) * 2 ^ s') with ((q + 1) * 2 ^ s' * b - (q * b - n) * 2 ^ s') by ring.
    rewrite (rne_div_up _ _ _ Hb Hd Hev).
    rewrite Z.div_mul by lia. lia.
Qed.

Lemma int_true_div_opp (a b : Z) : int_true_div (- a) b = - int_true_div a b.
Proof.
  unfold int_true_div, true_div. rewrite Z.abs_opp.
  destruct (Z.lt_trichotomy a 0) as [N | [-> | P]].
  - destruct (- a =? 0) eqn:E1; [lia |]. destruct (a =? 0) eqn:E2; [lia |].
    destruct (- a <? 0) eqn:E3; [lia |]. destruct (a <? 0) eqn:E4; [| lia].
    lia.
  - reflexivity.
  - destruct (- a =? 0) eqn:E1; [lia |]. destruct (a =? 0) eqn:E2; [lia |].
    destruct (- a <? 0) eqn:E3; [| lia]. destruct (a <? 0) eqn:E4; [lia |].
    reflexivity.
Qed.

(** Two dividends a unit or more apart have different [int(a / b)], unless
    both quotients lie strictly between [-1] and [1], where truncation gives
    [0] for both. *)
Lemma int_true_div_apart (x1 x2 b : Z) :
  0 < b -> x2 + b <= x1 ->
  - (2 ^ 52 * b) < x2 -> x1 < 2 ^ 52 * b ->
  ~ (- b < x2 < 0 /\ x1 < b) ->
  int_true_div x2 b < int_true_div x1 b.
Proof.
  intros Hb Hgap Hlo Hhi Hex.
  assert (One : int_true_div b b = 1).
  { replace b with (1 * b) at 1 by ring. apply int_true_div_multiple; lia. }
  destruct (Z_le_gt_dec 0 x2) as [P2 | N2].
  - pose proof (int_true_div_step x2 b Hb P2 ltac:(lia)) as Hstep.
    pose proof (int_true_div_mono (x2 + b) x1 b Hb Hgap ltac:(lia) Hhi). lia.
  - destruct (Z_le_gt_dec x1 0) as [N1 | P1].
    + pose proof (int_true_div_step (- x1) b Hb ltac:(lia) ltac:(lia)) as Hstep.
      pose proof (int_true_div_mono (- x1 + b) (- x2) b Hb ltac:(lia) ltac:(lia)
                    ltac:(lia)) as Hm.
      rewrite !int_true_div_opp in *. lia.
    + destruct (Z_le_gt_dec x2 (- b)) as [Far | Near].
      * pose proof (int_true_div_mono x2 (- b) b Hb Far Hlo ltac:(lia)) as Hm.
        rewrite int_true_div_opp, One in Hm.
        pose proof (int_true_div_nonneg x1 b ltac:(lia) Hb Hhi). lia.
      * pose proof (int_true_div_mono b x1 b Hb ltac:(lia) ltac:(lia) Hhi) as Hm.
        rewrite One in Hm.
        pose proof (int_true_div_nonneg (- x2) b ltac:(lia) Hb ltac:(lia)) as Hn.
        rewrite int_true_div_opp in Hn. lia.
Qed.

(** Strictly between [-1] and [1] the quotient truncates to [0]. *)
Lemma int_true_div_small (x : Z) :
  - 10 ^ 6 < x < 10 ^ 6 -> int_true_div x (10 ^ 6) = 0.
Proof.
  intros H. destruct (Z_le_gt_dec 0 x) as [P | N].
  - rewrite int_true_div_exact by lia. apply Z.div_small. lia.
  - replace x with (- - x) by lia. rewrite int_true_div_opp.
    rewrite int_true_div_exact by lia. rewrite Z.div_small by lia. reflexivity.
Qed.


(** ** The start of the window *)

Lemma us_per_pos (u : unit_name) : 0 < us_per u.
Proof. destruct u; reflexivity. Qed.

Lemma epoch_value : datetime_ymd 1970 1 1 = 62135596800000000.
Proof. reflexivity. Qed.

(** [start_from] in closed form: the two range checks, then the truncated
    quotient; the log is not touched. *)
Lemma start_from_eq (now : instant) (u : unit_name) (a : Z) (l : list log_record) :
  start_from now u a l =
  if (Z.abs (a * us_per u / us_per_day) <=? 999999999)
     && ((0 <=? now - a * us_per u) && (now - a * us_per u <=? datetime_max))
  then (Return (int_true_div (now - a * us_per u - datetime_ymd 1970 1 1) (10 ^ 6)), l)
  else (Raise OverflowError, l).
Proof.
  unfold start_from, timedelta_of, datetime_sub_timedelta, datetime_sub,
    total_seconds, bind.
  destruct (Z.abs (a * us_per u / us_per_day) <=? 999999999); [| reflexivity].
  cbn [andb ret].
  destruct ((0 <=? now - a * us_per u) && (now - a * us_per u <=? datetime_max));
    [| reflexivity].
  cbn [ret]. rewrite float_trunc_true_div. reflexivity.
Qed.

(** A smaller non-negative amount passes the range checks a larger one
    passes, and its window does not start earlier. *)
Lemma start_from_le (now : instant) (u : unit_name) (a1 a2 : Z)
    (l : list log_record) (s2 : Z) (l2 : list log_record) :
  valid_instant now -> 0 <= a1 <= a2 ->
  start_from now u a2 l = (Return s2, l2) ->
  s2 = int_true_div (now - a2 * us_per u - datetime_ymd 1970 1 1) (10 ^ 6) /\
  0 <= now - a2 * us_per u /\
  start_from now u a1 l =
    (Return (int_true_div (now - a1 * us_per u - datetime_ymd 1970 1 1) (10 ^ 6)), l) /\
  s2 <= int_true_div (now - a1 * us_per u - datetime_ymd 1970 1 1) (10 ^ 6).
Proof.
  intros [Hn0 Hn1] [Ha1 Ha12] H2.
  pose proof (us_per_pos u) as Hu.
  rewrite start_from_eq in H2. rewrite start_from_eq.
  destruct (Z.abs (a2 * us_per u / us_per_day) <=? 999999999) eqn:E1;
    [| discriminate].
  destruct ((0 <=? now - a2 * us_per u) && (now - a2 * us_per u <=? datetime_max))
    eqn:E2; [| discriminate].
  cbn [andb] in H2. injection H2 as <- <-.
  apply andb_prop in E2. destruct E2 as [E2 E3].
  apply Z.leb_le in E1, E2, E3.
  assert (Hmul : 0 <= a1 * us_per u <= a2 * us_per u) by nia.
  assert (Hd : 0 < us_per_day) by reflexivity.
  assert (Hdays : 0 <= a1 * us_per u / us_per_day <= a2 * us_per u / us_per_day).
  { split; [apply Z.div_pos; lia | apply Z.div_le_mono; lia]. }
  assert (C1 : (Z.abs (a1 * us_per u / us_per_day) <=? 999999999) = true)
    by (apply Z.leb_le; lia).
  assert (C2 : ((0 <=? now - a1 * us_per u) && (now - a1 * us_per u <=? datetime_max)) = true).
  { apply andb_true_intro. split; apply Z.leb_le; lia. }
  rewrite C1, C2. cbn [andb].
  repeat split; try lia.
  rewrite epoch_value. unfold datetime_max, MAXORDINAL, us_per_day in *.
  apply int_true_div_mono; lia.
Qed.

(** C7: with the clock fixed and [0 <= a1 <= a2], whenever the window of
    amount [a2] is computed, so is the window of [a1], and the start for [a2]
    is less than or equal to the start for [a1]. *)
Theorem start_from_non_increasing (now : instant) (u : unit_name) (a1 a2 : Z)
    (l : list log_record) (s2 : Z) (l2 : list log_record) :
  valid_instant now -> 0 <= a1 <= a2 ->
  start_from now u a2 l = (Return s2, l2) ->
  exists s1, start_from now u a1 l = (Return s1, l) /\ s2 <= s1.
Proof.
  intros Hnow Ha H2.
  destruct (start_from_le now u a1 a2 l s2 l2 Hnow Ha H2) as (_ & _ & H1 & Hle).
  eexists. split; [exact H1 | exact Hle].
Qed.

Lemma start_from_non_increasing_witness :
  exists s1,
    start_from (datetime_ymd 2023 11 14) hours 1 [] = (Return s1, []) /\
    1699833600 <= s1.
Proof.
  apply (start_from_non_increasing (datetime_ymd 2023 11 14) hours 1 24 []
           1699833600 []).
  - unfold valid_instant. vm_compute. split; discriminate.
  - lia.
  - vm_compute. reflexivity.
Defined.

(** C2, refuted as stated: half a second past 1700000000, the windows of 0 and
    of 1 microsecond start in the same second; and half a second past the
    epoch, the windows of 0 and of 1 second both start at 0, the quotient
    being truncated towards zero. *)
Lemma start_from_not_strict :
  (exists s1 s2,
     valid_instant (datetime_ymd 1970 1 1 + 1700000000500000) /\
     0 <= 0 < 1 /\
     start_from (datetime_ymd 1970 1 1 + 1700000000500000) microseconds 0 []
       = (Return s1, []) /\
     start_from (datetime_ymd 1970 1 1 + 1700000000500000) microseconds 1 []
       = (Return s2, []) /\
     ~ s2 < s1) /\
  (exists s1 s2,
     valid_instant (datetime_ymd 1970 1 1 + 500000) /\
     0 <= 0 < 1 /\
     start_from (datetime_ymd 1970 1 1 + 500000) seconds 0 [] = (Return s1, []) /\
     start_from (datetime_ymd 1970 1 1 + 500000) seconds 1 [] = (Return s2, []) /\
     ~ s2 < s1).
Proof.
  split.
  - exists 1700000000, 1700000000.
    split; [unfold valid_instant; vm_compute; split; discriminate |].
    split; [lia |].
    split; [vm_compute; reflexivity |].
    split; [vm_compute; reflexivity | lia].
  - exists 0, 0.
    split; [unfold valid_instant; vm_compute; split; discriminate |].
    split; [lia |].
    split; [vm_compute; reflexivity |].
    split; [vm_compute; reflexivity | lia].
Qed.

(** C2, amended: with the clock fixed and [0 <= a1 < a2], the start for [a2] is
    less than or equal to the start for [a1].  When the two offsets lie a
    second or more apart it is strictly less, with one exception: when the
    window of [a2] starts in the last second before the epoch and the window
    of [a1] in the first second from it, both starts are [0]. *)
Theorem start_from_decreasing (now : instant) (u : unit_name) (a1 a2 : Z)
    (l : list log_record) (s2 : Z) (l2 : list log_record) :
  valid_instant now -> 0 <= a1 < a2 ->
  start_from now u a2 l = (Return s2, l2) ->
  exists s1,
    start_from now u a1 l = (Return s1, l) /\
    s2 <= s1 /\
    (10 ^ 6 <= (a2 - a1) * us_per u ->
     ~ (datetime_ymd 1970 1 1 - 10 ^ 6 < now - a2 * us_per u < datetime_ymd 1970 1 1
        /\ now - a1 * us_per u < datetime_ymd 1970 1 1 + 10 ^ 6) ->
     s2 < s1) /\
    (datetime_ymd 1970 1 1 - 10 ^ 6 < now - a2 * us_per u < datetime_ymd 1970 1 1 ->
     now - a1 * us_per u < datetime_ymd 1970 1 1 + 10 ^ 6 ->
     s1 = 0 /\ s2 = 0).
Proof.
  intros Hnow Ha H2.
  destruct (start_from_le now u a1 a2 l s2 l2 Hnow ltac:(lia) H2)
    as (Hs2 & Hd2 & H1 & Hle).
  eexists. split; [exact H1 |]. split; [exact Hle |].
  pose proof (us_per_pos u) as Hu.
  destruct Hnow as [Hn0 Hn1].
  rewrite epoch_value in *. unfold datetime_max, MAXORDINAL, us_per_day in Hn1.
  subst s2. split.
  - intros Hgap Hex.
    apply int_true_div_apart; [lia | nia | lia | nia | ].
    intros [A B]. apply Hex. split; lia.
  - intros A B. split; apply int_true_div_small; nia.
Qed.

Lemma start_from_decreasing_witness :
  valid_instant (datetime_ymd 2600 1 1 + 999999) /\
  0 <= 1 < 2 /\
  start_from (datetime_ymd 2600 1 1 + 999999) seconds 2 []
    = (Return 19880899199, []) /\
  exists s1,
    start_from (datetime_ymd 2600 1 1 + 999999) seconds 1 [] = (Return s1, []) /\
    19880899199 <= s1 /\
    19880899199 < s1.
Proof.
  assert (Hnow : valid_instant (datetime_ymd 2600 1 1 + 999999))
    by (unfold valid_instant; vm_compute; split; discriminate).
  assert (H2 : start_from (datetime_ymd 2600 1 1 + 999999) seconds 2 []
               = (Return 19880899199, [])) by (vm_compute; reflexivity).
  split; [exact Hnow |]. split; [lia |]. split; [exact H2 |].
  destruct (start_from_decreasing (datetime_ymd 2600 1 1 + 999999) seconds 1 2 []
              19880899199 [] Hnow ltac:(lia) H2) as (s1 & H1 & Hle & Hstrict & _).
  exists s1. split; [exact H1 |]. split; [exact Hle |].
  apply Hstrict.
  - vm_compute. discriminate.
  - intros [[_ B] _]. vm_compute in B. discriminate B.
Defined.

(** ** The answer of [get_reports] to a response that is not 200 *)

(** C6, refuted as stated: a 502 whose body is a gateway's page, not JSON, and
    a 500 whose body is a JSON list both end the call with an exception
    instead of a message. *)
Lemma get_reports_non_200_raises :
  get_reports (datetime_ymd 2023 11 14) gateway_page "key" hours 1 20 false "json" []
    = (Raise ValueError, []) /\
  get_reports (datetime_ymd 2023 11 14) error_list "key" hours 1 20 false "json" []
    = (Raise AttributeError, [ErrorBody (PList [])]).
Proof. split; vm_compute; reflexivity. Qed.

(** C6, amended: after a response that is not 200 and whose body is a JSON
    object, [get_reports] logs the body and returns the object's [message]
    ([None] when it has none); a body that is not JSON raises [ValueError]
    before anything is logged, and a JSON body that is not an object raises
    [AttributeError] after the body is logged. *)
Theorem get_reports_non_200 (utcnow : instant)
    (session_get : request -> response + exn) (api_key : string)
    (u : unit_name) (amount limit : Z) (export : bool) (fmt : string)
    (l : list log_record) (start : Z) (r : response) :
  start_from utcnow u amount l = (Return start, l) ->
  session_get (mk_request api_key start limit (if export then Some fmt else None))
    = inl r ->
  status_code r <> 200 ->
  get_reports utcnow session_get api_key u amount limit export fmt l =
  match json r with
  | Some (PDict d) =>
      (Return (Object (dict_get "message" d)), l ++ [ErrorBody (PDict d)])
  | Some body => (Raise AttributeError, l ++ [ErrorBody body])
  | None => (Raise ValueError, l)
  end.
Proof.
  intros Hstart Hget Hstatus.
  unfold get_reports, bind. rewrite Hstart, Hget. cbn [ret].
  destruct (status_code r =? 200) eqn:E; [apply Z.eqb_eq in E; contradiction |].
  unfold response_json.
  destruct (json r) as [body |]; [| reflexivity].
  cbn [ret logging].
  destruct body; reflexivity.
Qed.

Lemma get_reports_non_200_witness :
  start_from (datetime_ymd 2023 11 14) hours 1 [] = (Return 1699916400, []) /\
  unauthorized (mk_request "key" 1699916400 20 None)
    = inl (mk_response 401 "{'message': 'Unauthorized'}"
             (Some (PDict [("message", PStr "Unauthorized")]))) /\
  401 <> 200 /\
  get_reports (datetime_ymd 2023 11 14) unauthorized "key" hours 1 20 false "json" []
    = (Return (Object (PStr "Unauthorized")),
       [ErrorBody (PDict [("message", PStr "Unauthorized")])]).
Proof.
  split; [vm_compute; reflexivity |].
  split; [reflexivity |].
  split; [discriminate |].
  apply (get_reports_non_200 (datetime_ymd 2023 11 14) unauthorized "key" hours 1 20
           false "json" [] 1699916400
           (mk_response 401 "{'message': 'Unauthorized'}"
              (Some (PDict [("message", PStr "Unauthorized")])))).
  - vm_compute. reflexivity.
  - reflexivity.
  - discriminate.
Defined.

(** ** Calendar fields and the shape of a formatted time *)

Lemma ymd_of_days_range (n : Z) :
  let '(y, m, d) := ymd_of_days n in 1 <= m <= 12 /\ 1 <= d <= 31.
Proof.
  unfold ymd_of_days.
  set (z := n + 719468). set (era := z / 146097).
  set (doe := z - era * 146097).
  set (yoe := (doe - doe / 1460 + doe / 36524 - doe / 146096) / 365).
  set (doy := doe - (365 * yoe + yoe / 4 - yoe / 100)).
  set (mp := (5 * doy + 2) / 153).
  assert (Hdoe : 0 <= doe <= 146096).
  { subst doe era. Z.to_euclidean_division_equations; lia. }
  assert (Hdoy : 0 <= doy <= 365).
  { subst doy yoe. clearbody doe. clear - Hdoe.
    Z.to_euclidean_division_equations; lia. }
  assert (Hmp : 0 <= mp <= 11 /\ 1 <= doy - (153 * mp + 2) / 5 + 1 <= 31).
  { subst mp. clearbody doy. clear - Hdoy.
    Z.to_euclidean_division_equations; lia. }
  destruct (mp <? 10) eqn:E; [apply Z.ltb_lt in E | apply Z.ltb_ge in E]; lia.
Qed.

Lemma datetime_of_seconds_range (s : Z) :
  let dt := datetime_of_seconds s in
  1 <= month dt <= 12 /\ 1 <= day dt <= 31 /\
  0 <= hour dt <= 23 /\ 0 <= minute dt <= 59 /\ 0 <= second dt <= 59.
Proof.
  unfold datetime_of_seconds.
  pose proof (ymd_of_days_range (s / 86400)) as H.
  destruct (ymd_of_days (s / 86400)) as [[y m] d]. cbn.
  split; [tauto |]. split; [tauto |].
  Z.to_euclidean_division_equations; lia.
Qed.

Lemma is_digit_digit (n : Z) : 0 <= n <= 9 -> is_digit (digit n) = true.
Proof.
  intros H. unfold digit.
  assert (Hk : (Z.to_nat n <= 9)%nat) by lia.
  destruct (Z.to_nat n) as [| k]; [reflexivity |].
  do 9 (destruct k as [| k]; [reflexivity |]). lia.
Qed.

(** The fields being in the range of a calendar date and a time of day, and
    the year one of four digits, the formatted text is [DD.MM.YYYY HH:MM:SS]
    in digits. *)
Lemma strftime_shape (padded : bool) (dt : datetime) :
  0 <= day dt <= 99 -> 0 <= month dt <= 99 -> 1000 <= year dt <= 9999 ->
  0 <= hour dt <= 99 -> 0 <= minute dt <= 99 -> 0 <= second dt <= 99 ->
  has_shape "DD.MM.YYYY HH:MM:SS" (strftime padded dt) = true.
Proof.
  intros Hd Hm Hy HH HM HS.
  unfold strftime, year_field.
  replace (1000 <=? year dt) with true by (symmetry; apply Z.leb_le; lia).
  rewrite orb_true_r.
  unfold pad2, pad4. cbn [append has_shape].
  change (is_upper "D") with true. change (is_upper "M") with true.
  change (is_upper "Y") with true. change (is_upper "H") with true.
  change (is_upper "S") with true.
  change (is_upper ".") with false. change (is_upper " ") with false.
  change (is_upper ":") with false.
  cbv iota.
  rewrite !is_digit_digit by (Z.to_euclidean_division_equations; lia).
  reflexivity.
Qed.

(** ** Calls that leave the log alone *)

Lemma pure_ret {A} (a : A) : pure (ret a).
Proof. intros ?. reflexivity. Qed.

Lemma pure_raise {A} (e : exn) : pure (@raise A e).
Proof. intros ?. reflexivity. Qed.

Lemma pure_bind {A B} (m : M A) (f : A -> M B) :
  pure m -> (forall a, pure (f a)) -> pure (bind m f).
Proof.
  intros Hm Hf l. unfold run, bind.
  rewrite (Hm l), (Hm []). cbn [fst].
  destruct (run m) as [a | e | e]; [| reflexivity | reflexivity].
  rewrite (Hf a l), (Hf a []). reflexivity.
Qed.

Lemma pure_get (v : value) (k : string) : pure (get v k).
Proof. destruct v; intros ?; reflexivity. Qed.

Lemma pure_getitem (v : value) (k : string) : pure (getitem v k).
Proof.
  destruct v; try (intros ?; reflexivity).
  unfold getitem. destruct (dict_lookup k d); intros ?; reflexivity.
Qed.

Lemma pure_iter (v : value) : pure (iter v).
Proof. destruct v; intros ?; reflexivity. Qed.

Lemma pure_mapM {A B} (f : A -> M B) (xs : list A) :
  (forall a, pure (f a)) -> pure (mapM f xs).
Proof.
  intros Hf. induction xs as [| a xs IH]; cbn [mapM].
  - apply pure_ret.
  - apply pure_bind; [apply Hf |]. intros b.
    apply pure_bind; [exact IH |]. intros bs. apply pure_ret.
Qed.

Lemma pure_flatten_answers (a : value) : pure (flatten_answers a).
Proof.
  unfold flatten_answers, chain_from_iterable.
  apply pure_bind; [apply pure_iter |]. intros elems.
  apply pure_bind; [apply pure_mapM; intros; apply pure_getitem |]. intros parts.
  apply pure_bind; [apply pure_mapM; intros; apply pure_iter |]. intros xss.
  apply pure_ret.
Qed.

Lemma pure_float_trunc (f : spec_float) : pure (float_trunc f).
Proof. destruct f; intros ?; reflexivity. Qed.

(** A pure call run on any log gives the outcome of [run]. *)
Lemma pure_run {A} (m : M A) (l : list log_record) (r : result A)
    (l' : list log_record) :
  pure m -> m l = (r, l') -> run m = r /\ l' = l.
Proof.
  intros Hm H. rewrite (Hm l) in H. injection H as <- <-. split; reflexivity.
Qed.

Lemma dict_get_truthy (k : string) (d : dict) :
  truthy (dict_get k d) = true -> dict_lookup k d = Some (dict_get k d).
Proof.
  unfold dict_get. destruct (dict_lookup k d); [reflexivity | discriminate].
Qed.

(** ** Normalisation of one record *)

Section Normalize.

Context {P : Platform}.

Lemma pure_int (v : value) : pure (int v).
Proof.
  destruct v; try (intros ?; reflexivity).
  - apply pure_float_trunc.
  - cbn [int].
    destruct (int_of_str s); intros ?; reflexivity.
Qed.

Lemma pure_localtime (t : Z) : pure (localtime t).
Proof.
  unfold localtime.
  match goal with
  | |- pure (if ?c then _ else _) => destruct c
  end; intros ?; reflexivity.
Qed.

Lemma pure_check_year (dt : datetime) : pure (check_year dt).
Proof.
  unfold check_year.
  match goal with
  | |- pure (if ?c then _ else _) => destruct c
  end; intros ?; reflexivity.
Qed.

Lemma pure_fromtimestamp (t : Z) : pure (fromtimestamp t).
Proof.
  unfold fromtimestamp.
  match goal with
  | |- pure (if ?c then _ else _) => destruct c
  end; [apply pure_raise |].
  repeat first
    [ apply pure_ret | apply pure_localtime | apply pure_check_year
    | apply pure_bind; [| intros ?] ].
Qed.

Lemma pure_convert_timestamp (v : value) : pure (convert_timestamp v).
Proof.
  unfold convert_timestamp.
  apply pure_bind; [apply pure_int |]. intros n.
  apply pure_bind; [apply pure_fromtimestamp |]. intros dt. apply pure_ret.
Qed.

Ltac crunch :=
  repeat (
    cbn -[convert_timestamp flatten_answers truthy dict_get dict_lookup run];
    try (intros; discriminate);
    match goal with
    | H : dict_lookup ?k ?d = _ |- context [dict_lookup ?k ?d] => rewrite H
    | H : truthy ?x = _ |- context [if truthy ?x then _ else _] => rewrite H
    | |- context [convert_timestamp ?v ?l] =>
        rewrite (pure_convert_timestamp v l);
        first [ match goal with
                | H : run (convert_timestamp v) = _ |- _ => rewrite H
                end
              | destruct (run (convert_timestamp v)) eqn:? ]
    | |- context [flatten_answers ?v ?l] =>
        rewrite (pure_flatten_answers v l);
        first [ match goal with
                | H : run (flatten_answers v) = _ |- _ => rewrite H
                end
              | destruct (run (flatten_answers v)) eqn:? ]
    | |- context [if truthy ?x then _ else _] => destruct (truthy x) eqn:?
    | |- context [dict_lookup "answers" ?rd] =>
        rewrite (dict_get_truthy "answers" rd) by assumption
    end).

(** What [build_result] returns, and when: the record is a [dict] whose
    [resource] is a [dict], its timestamp converts, and its answers, when
    truthy, flatten. *)
Lemma build_result_spec (item : value) (e : dict) :
  run (build_result item) = Return e <->
  exists d rd t flat,
    item = PDict d /\
    dict_lookup "resource" d = Some (PDict rd) /\
    run (convert_timestamp (dict_get "timestamp" d)) = Return t /\
    (if truthy (dict_get "answers" rd)
     then run (flatten_answers (dict_get "answers" rd)) = Return flat
     else flat = []) /\
    e = entry_of d rd t flat.
Proof.
  split.
  - destruct item as [| | | | | | d]; try discriminate.
    unfold run at 1. unfold build_result, resource_get.
    destruct (dict_lookup "resource" d) as [r |] eqn:Hr.
    2:{ unfold bind. crunch. }
    destruct r as [| | | | | | rd]; try (unfold bind; crunch; fail).
    unfold bind. crunch; intros H; injection H as <-;
      match goal with
      | Ht : run (convert_timestamp _) = Return ?t |- _ =>
          exists d, rd, t;
          match goal with
          | Hf : run (flatten_answers _) = Return ?flat |- _ => exists flat
          | _ => exists []
          end
      end;
      unfold entry_of, optional_key, dict_get in *; rewrite ?Hr;
      repeat match goal with
             | H : truthy _ = _ |- _ => rewrite H
             end; auto.
  - intros (d & rd & t & flat & -> & Hr & Ht & Hf & ->).
    unfold run at 1. unfold build_result, resource_get, entry_of, optional_key, bind.
    destruct (truthy (dict_get "answers" rd)) eqn:Ha; crunch;
      unfold dict_get; rewrite ?Hr; subst; reflexivity.
Qed.

Lemma pure_build_result (item : value) : pure (build_result item).
Proof.
  unfold build_result, resource_get.
  repeat first
    [ apply pure_ret | apply pure_get | apply pure_getitem
    | apply pure_convert_timestamp | apply pure_flatten_answers
    | apply pure_bind; [| intros ?]
    | match goal with
      | |- pure (if ?c then _ else _) => destruct c
      end ].
Qed.

(** One turn of the loop, by the outcome of [build_result]: the entry is
    appended between a separator and a blank line, a [KeyError] is logged and
    ends the process, any other exception leaves the function. *)
Lemma parse_item_eq (item : value) (output : list string) (l : list log_record) :
  parse_item item output l =
  match run (build_result item) with
  | Return e =>
      (Return (((output ++ [("---" ++ nl)%string]) ++ [yaml_dump e]) ++ [nl]),
       l ++ [DebugItem item])
  | Raise (KeyError k) =>
      (Exit (KeyError k), (l ++ [DebugItem item]) ++ [ErrorItem item])
  | Raise ex => (Raise ex, l ++ [DebugItem item])
  | Exit ex => (Exit ex, l ++ [DebugItem item])
  end.
Proof.
  unfold parse_item, bind, logging, try_except_KeyError.
  rewrite (pure_build_result item (l ++ [DebugItem item])).
  destruct (run (build_result item)) as [e | ex | ex]; try reflexivity.
  destruct ex; reflexivity.
Qed.

Lemma parse_item_aborts (item : value) (output : list string) (l : list log_record) :
  aborts (run (build_result item)) -> aborts (fst (parse_item item output l)).
Proof.
  rewrite parse_item_eq.
  destruct (run (build_result item)) as [e | ex | ex]; cbn; auto.
  destruct ex; cbn; auto.
Qed.

(** The loop does not return once the entry of one of its records cannot be
    built. *)
Lemma for_items_aborts (items : list value) (item : value) :
  In item items -> aborts (run (build_result item)) ->
  forall output l, aborts (fst (for_items items output l)).
Proof.
  intros Hin Hbad.
  induction items as [| a items IH]; [contradiction |].
  intros output l. cbn [for_items]. unfold bind.
  destruct (parse_item a output l) as [[out' | ex | ex] l1] eqn:Ea;
    cbn; auto.
  destruct Hin as [-> | Hin].
  - pose proof (parse_item_aborts item output l Hbad) as H.
    rewrite Ea in H. contradiction.
  - apply IH. exact Hin.
Qed.

(** On a list the guard on the length lets every call through to the loop. *)
Lemma parse_reports_list (items : list value) (l : list log_record) :
  parse_reports (PList items) l =
  (output <- for_items items [] ;; ret (String.concat "" output)) l.
Proof.
  unfold parse_reports. cbn [len iter]. unfold bind at 1. cbn [ret].
  destruct (Z.of_nat (Datatypes.length items) =? -1) eqn:E;
    [apply Z.eqb_eq in E; lia |].
  cbn [negb]. unfold bind. cbn [ret].
  destruct (for_items items [] l) as [[o | ex | ex] l1]; reflexivity.
Qed.

Lemma parse_reports_aborts (items : list value) (item : value) (l : list log_record) :
  In item items -> aborts (run (build_result item)) ->
  aborts (fst (parse_reports (PList items) l)).
Proof.
  intros Hin Hbad. rewrite parse_reports_list. unfold bind.
  pose proof (for_items_aborts items item Hin Hbad [] l) as H.
  destruct (for_items items [] l) as [[o | ex | ex] l1]; cbn in *; auto.
Qed.

Lemma convert_timestamp_int (v : value) (t : string) :
  run (convert_timestamp v) = Return t -> exists n, run (int v) = Return n.
Proof.
  unfold convert_timestamp, run at 1, bind.
  rewrite (pure_int v []).
  destruct (run (int v)) as [n | ex | ex]; cbn; try discriminate.
  intros _. exists n. reflexivity.
Qed.

(** The days around the instant of the example. *)
Lemma sample_date (s : Z) :
  1700000000 - 2 * 86400 < s < 1700000000 + 86400 ->
  year (datetime_of_seconds s) = 2023 /\
  month (datetime_of_seconds s) = 11 /\
  12 <= day (datetime_of_seconds s) <= 15.
Proof.
  intros H. unfold datetime_of_seconds.
  assert (C : 19673 <= s / 86400 <= 19676)
    by (Z.to_euclidean_division_equations; lia).
  assert (C' : s / 86400 = 19673 \/ s / 86400 = 19674 \/
               s / 86400 = 19675 \/ s / 86400 = 19676) by lia.
  destruct C' as [-> | [-> | [-> | ->]]]; cbn; lia.
Qed.

(** The text of the instant of the example at an offset of less than a day:
    the 13th, 14th or 15th of November 2023 and the local time of day. *)
Lemma sample_text (padded : bool) (off : Z) :
  - 86400 < off < 86400 ->
  strftime padded (datetime_of_seconds (1700000000 + off)) =
  (pad2 (14 + (80000 + off) / 86400) ++ ".11.2023 "
   ++ pad2 ((80000 + off) mod 86400 / 3600) ++ ":"
   ++ pad2 ((80000 + off) mod 3600 / 60) ++ ":"
   ++ pad2 ((80000 + off) mod 60))%string.
Proof.
  intros H.
  assert (Hd : (1700000000 + off) / 86400 = 19675 + (80000 + off) / 86400).
  { replace (1700000000 + off) with (19675 * 86400 + (80000 + off)) by ring.
    rewrite Z.div_add_l by lia. reflexivity. }
  assert (Hr : (1700000000 + off) mod 86400 = (80000 + off) mod 86400).
  { replace (1700000000 + off) with (80000 + off + 19675 * 86400) by ring.
    apply Z.mod_add. lia. }
  assert (H3600 : (80000 + off) mod 86400 mod 3600 = (80000 + off) mod 3600).
  { replace 86400 with (3600 * 24) by reflexivity.
    rewrite Z.rem_mul_r by lia.
    rewrite (Z.mul_comm 3600), Z.mod_add by lia. apply Z.mod_mod. lia. }
  assert (H60 : (80000 + off) mod 86400 mod 60 = (80000 + off) mod 60).
  { replace 86400 with (60 * 1440) by reflexivity.
    rewrite Z.rem_mul_r by lia.
    rewrite (Z.mul_comm 60), Z.mod_add by lia. apply Z.mod_mod. lia. }
  unfold datetime_of_seconds. rewrite Hd, Hr.
  assert (C : (80000 + off) / 86400 = - 1 \/ (80000 + off) / 86400 = 0 \/
              (80000 + off) / 86400 = 1)
    by (Z.to_euclidean_division_equations; lia).
  set (r := (80000 + off) mod 86400) in *.
  destruct C as [-> | [-> | ->]];
    match goal with
    | |- context [ymd_of_days ?n] =>
        let v := eval vm_compute in (ymd_of_days n) in
        change (ymd_of_days n) with v
    end; cbv iota beta; unfold strftime;
    cbn [year month day hour minute second];
    rewrite H3600, H60;
    destruct padded; reflexivity.
Qed.


Lemma sample_localtime (t : Z) :
  1700000000 - 86400 <= t <= 1700000000 ->
  - 86400 < utcoffset t < 86400 ->
  localtime t = ret (datetime_of_seconds (t + utcoffset t)) /\
  check_year (datetime_of_seconds (t + utcoffset t)) = ret tt.
Proof.
  intros Ht Hoff.
  assert (R : 1700000000 - 2 * 86400 < t + utcoffset t < 1700000000 + 86400) by lia.
  destruct (sample_date (t + utcoffset t) R) as (Hy & _ & _).
  unfold localtime, check_year. rewrite Hy. split; reflexivity.
Qed.

Lemma sample_time :
  (forall t, - 86400 < utcoffset t < 86400) ->
  run (convert_timestamp (PInt 1700000000)) =
  Return (strftime pads_year
            (datetime_of_seconds (1700000000 + utcoffset 1700000000))).
Proof.
  intros H. unfold convert_timestamp, run, bind. cbn [int ret fst].
  unfold fromtimestamp.
  change (negb ((- 2 ^ 63 <=? 1700000000) && (1700000000 <? 2 ^ 63))) with false.
  cbv iota.
  destruct (sample_localtime 1700000000 ltac:(lia) (H _)) as [L1 C1].
  destruct (sample_localtime (1700000000 - 86400) ltac:(lia) (H _)) as [L2 C2].
  unfold bind. rewrite L1. cbn [ret]. rewrite C1. cbn [ret].
  rewrite L2. cbn [ret]. rewrite C2. reflexivity.
Qed.

(** C1: on a host whose offsets from UTC are less than a day, the record of
    the example normalises to an entry with domain [example.com], type [A],
    the answers [1.2.3.4] and [5.6.7.8] in that order, and as time the local
    broken-down time of epoch 1700000000, printed as [DD.MM.YYYY HH:MM:SS]:
    with [w] the seconds from the midnight that began 14 November 2023 in
    UTC to the local time, the day [14 + w / 86400] of [11.2023] and the time
    of day of [w]; on a host on UTC the text is [14.11.2023 22:13:20].  The
    report is that one entry between a separator line and a blank line. *)
Theorem normalize_sample_record :
  (forall t, - 86400 < utcoffset t < 86400) ->
  exists t entry,
    run (build_result sample_record) = Return entry /\
    entry = [("user_name", PStr "a"); ("user_id", PInt 1); ("time", PStr t);
             ("action", PStr "add_record"); ("type", PStr "A");
             ("domain", PStr "example.com");
             ("answers", PList [PStr "1.2.3.4"; PStr "5.6.7.8"])] /\
    t = strftime pads_year
          (datetime_of_seconds (1700000000 + utcoffset 1700000000)) /\
    t = (pad2 (14 + (80000 + utcoffset 1700000000) / 86400) ++ ".11.2023 "
         ++ pad2 ((80000 + utcoffset 1700000000) mod 86400 / 3600) ++ ":"
         ++ pad2 ((80000 + utcoffset 1700000000) mod 3600 / 60) ++ ":"
         ++ pad2 ((80000 + utcoffset 1700000000) mod 60))%string /\
    (utcoffset 1700000000 = 0 -> t = "14.11.2023 22:13:20") /\
    has_shape "DD.MM.YYYY HH:MM:SS" t = true /\
    run (parse_reports (PList [sample_record])) =
      Return (("---" ++ nl) ++ yaml_dump entry ++ nl)%string.
Proof.
  intros H.
  pose proof (sample_time H) as Ht.
  pose proof (sample_text pads_year (utcoffset 1700000000) (H 1700000000)) as Htext.
  set (t := strftime pads_year
              (datetime_of_seconds (1700000000 + utcoffset 1700000000))) in *.
  assert (He : run (build_result sample_record) =
               Return (entry_of
                 [("user_name", PStr "a"); ("user_id", PInt 1);
                  ("timestamp", PInt 1700000000); ("action", PStr "add_record");
                  ("resource", PDict sample_resource)]
                 sample_resource t [PStr "1.2.3.4"; PStr "5.6.7.8"])).
  { apply build_result_spec. do 4 eexists.
    split; [reflexivity |]. split; [reflexivity |].
    split; [exact Ht |]. split; reflexivity. }
  eexists t, _. split; [exact He |].
  split; [reflexivity |]. split; [reflexivity |].
  split; [exact Htext |].
  split.
  { intros H0. rewrite Htext, H0. reflexivity. }
  split.
  { pose proof (datetime_of_seconds_range (1700000000 + utcoffset 1700000000)) as R.
    cbv zeta in R.
    destruct (sample_date (1700000000 + utcoffset 1700000000)) as (Hy & _ & _);
      [specialize (H 1700000000); lia |].
    subst t. apply strftime_shape; lia. }
  unfold run. rewrite parse_reports_list. unfold bind. cbn [for_items].
  unfold bind. rewrite parse_item_eq, He. reflexivity.
Qed.

(** C3, amended: the entry carries the raw [resource] exactly when
    [resource.answers] is absent or falsy, whatever [resource.type] and
    [resource.domain] are, and carries [answers] instead exactly when
    [resource.answers] is truthy. *)
Theorem resource_passthrough (item : value) (e : dict) :
  run (build_result item) = Return e ->
  exists d rd,
    item = PDict d /\ dict_lookup "resource" d = Some (PDict rd) /\
    dict_lookup "resource" e =
      (if truthy (dict_get "answers" rd) then None else Some (PDict rd)) /\
    (In "answers" (dict_keys e) <-> truthy (dict_get "answers" rd) = true) /\
    (In "resource" (dict_keys e) <-> truthy (dict_get "answers" rd) = false).
Proof.
  intros H. apply build_result_spec in H.
  destruct H as (d & rd & t & flat & -> & Hr & _ & _ & ->).
  exists d, rd. split; [reflexivity |]. split; [exact Hr |].
  unfold entry_of, optional_key.
  destruct (truthy (dict_get "zone" d)), (truthy (dict_get "type" rd)),
    (truthy (dict_get "domain" rd)), (truthy (dict_get "answers" rd));
    cbn; (split; [reflexivity |]); split; split; intros; try discriminate;
    try reflexivity; intuition discriminate.
Qed.

(** C4: the entry has a [zone] key exactly when the top-level [zone] of the
    record is truthy, and the value stored under it is the [zone] of the
    record's [resource]. *)
Theorem zone_from_resource (item : value) (e : dict) :
  run (build_result item) = Return e ->
  exists d rd,
    item = PDict d /\ dict_lookup "resource" d = Some (PDict rd) /\
    (In "zone" (dict_keys e) <-> truthy (dict_get "zone" d) = true) /\
    dict_lookup "zone" e =
      (if truthy (dict_get "zone" d) then Some (dict_get "zone" rd) else None).
Proof.
  intros H. apply build_result_spec in H.
  destruct H as (d & rd & t & flat & -> & Hr & _ & _ & ->).
  exists d, rd. split; [reflexivity |]. split; [exact Hr |].
  unfold entry_of, optional_key.
  destruct (truthy (dict_get "zone" d)), (truthy (dict_get "type" rd)),
    (truthy (dict_get "domain" rd)), (truthy (dict_get "answers" rd));
    cbn; (split; [| reflexivity]); split; intros; try discriminate;
    try reflexivity; intuition discriminate.
Qed.

(** C9: the keys of an entry are, in this order, [user_name], [user_id],
    [zone] when the top-level [zone] is truthy, [time], [action], [type] and
    [domain] when the resource's are truthy, then [answers] when the
    resource's are truthy and [resource] otherwise. *)
Theorem entry_keys_order (item : value) (e : dict) :
  run (build_result item) = Return e ->
  exists d rd,
    item = PDict d /\ dict_lookup "resource" d = Some (PDict rd) /\
    dict_keys e =
      ["user_name"; "user_id"]
      ++ (if truthy (dict_get "zone" d) then ["zone"] else [])
      ++ ["time"; "action"]
      ++ (if truthy (dict_get "type" rd) then ["type"] else [])
      ++ (if truthy (dict_get "domain" rd) then ["domain"] else [])
      ++ [if truthy (dict_get "answers" rd) then "answers" else "resource"].
Proof.
  intros H. apply build_result_spec in H.
  destruct H as (d & rd & t & flat & -> & Hr & _ & _ & ->).
  exists d, rd. split; [reflexivity |]. split; [exact Hr |].
  unfold entry_of, optional_key.
  destruct (truthy (dict_get "zone" d)), (truthy (dict_get "type" rd)),
    (truthy (dict_get "domain" rd)), (truthy (dict_get "answers" rd));
    reflexivity.
Qed.

(** C5: a list holding a record whose [timestamp] is absent, or is not
    something [int] converts, yields no report: the call of [parse_reports]
    does not return, whatever the records before and after it. *)
Theorem parse_reports_bad_timestamp (items : list value) (d : dict)
    (l : list log_record) :
  In (PDict d) items ->
  dict_lookup "timestamp" d = None \/ aborts (run (int (dict_get "timestamp" d))) ->
  aborts (fst (parse_reports (PList items) l)).
Proof.
  intros Hin Hbad.
  apply parse_reports_aborts with (item := PDict d); [exact Hin |].
  destruct (run (build_result (PDict d))) as [e | ex | ex] eqn:E; cbn; auto.
  apply build_result_spec in E.
  destruct E as (d' & rd & t & flat & Hd & _ & Ht & _).
  injection Hd as <-.
  apply convert_timestamp_int in Ht. destruct Ht as [n Hn].
  destruct Hbad as [Habs | Hconv].
  - unfold dict_get in Hn. rewrite Habs in Hn. discriminate.
  - rewrite Hn in Hconv. exact Hconv.
Qed.

(** C10: a list holding a record without a [resource] key yields no report;
    when that record comes first and its timestamp converts, the process exits
    on the [KeyError] of the missing key, after logging the record. *)
Theorem parse_reports_missing_resource (items : list value) (d : dict)
    (l : list log_record) :
  In (PDict d) items ->
  dict_lookup "resource" d = None ->
  aborts (fst (parse_reports (PList items) l)) /\
  forall rest,
    aborts (run (convert_timestamp (dict_get "timestamp" d))) \/
    parse_reports (PList (PDict d :: rest)) l =
      (Exit (KeyError "resource"), (l ++ [DebugItem (PDict d)]) ++ [ErrorItem (PDict d)]).
Proof.
  intros Hin Hres.
  assert (Hab : aborts (run (build_result (PDict d)))).
  { destruct (run (build_result (PDict d))) as [e | ex | ex] eqn:E; cbn; auto.
    apply build_result_spec in E.
    destruct E as (d' & rd & t & flat & Hd & Hr & _).
    injection Hd as <-. rewrite Hres in Hr. discriminate. }
  split; [apply parse_reports_aborts with (item := PDict d); assumption |].
  intros rest.
  destruct (run (convert_timestamp (dict_get "timestamp" d))) as [t | ex | ex] eqn:Et;
    [right | left; exact I | left; exact I].
  rewrite parse_reports_list. cbn [for_items]. unfold bind.
  rewrite parse_item_eq.
  assert (E : run (build_result (PDict d)) = Raise (KeyError "resource")).
  { unfold run, build_result, resource_get, bind. crunch; reflexivity. }
  rewrite E. reflexivity.
Qed.

(** C8: the empty list gives the empty report and leaves the log alone; no
    object has length [-1], and every list goes through the loop. *)
Theorem parse_reports_empty :
  (forall l, parse_reports (PList []) l = (Return "", l)) /\
  (forall v l, fst (len v l) <> Return (-1)) /\
  (forall items l,
     parse_reports (PList items) l =
     (output <- for_items items [] ;; ret (String.concat "" output)) l).
Proof.
  split; [intros l; reflexivity |].
  split; [| exact parse_reports_list].
  intros v l. destruct v; cbn; try discriminate; intros H; injection H; lia.
Qed.

End Normalize.

(** ** The theorems at sample records, on a host on UTC *)

Lemma normalize_sample_record_witness :
  (forall t, - 86400 < @utcoffset utc_platform t < 86400) /\
  run (@build_result utc_platform sample_record) =
    Return [("user_name", PStr "a"); ("user_id", PInt 1);
            ("time", PStr "14.11.2023 22:13:20");
            ("action", PStr "add_record"); ("type", PStr "A");
            ("domain", PStr "example.com");
            ("answers", PList [PStr "1.2.3.4"; PStr "5.6.7.8"])] /\
  has_shape "DD.MM.YYYY HH:MM:SS" "14.11.2023 22:13:20" = true /\
  run (@parse_reports utc_platform (PList [sample_record])) =
    Return (("---" ++ nl)
            ++ @yaml_dump utc_platform
                 [("user_name", PStr "a"); ("user_id", PInt 1);
                  ("time", PStr "14.11.2023 22:13:20");
                  ("action", PStr "add_record"); ("type", PStr "A");
                  ("domain", PStr "example.com");
                  ("answers", PList [PStr "1.2.3.4"; PStr "5.6.7.8"])]
            ++ nl)%string.
Proof.
  assert (H : forall t, - 86400 < @utcoffset utc_platform t < 86400)
    by (intros t; cbn; lia).
  split; [exact H |].
  destruct (@normalize_sample_record utc_platform H)
    as (t & entry & Hb & He & _ & _ & Hutc & Hs & Hp).
  rewrite (Hutc eq_refl) in *. subst entry.
  split; [exact Hb |]. split; [exact Hs | exact Hp].
Defined.

(** On UTC the time of the example is 14 November 2023, 22:13:20. *)
Example sample_time_utc :
  run (@build_result utc_platform sample_record) =
  Return [("user_name", PStr "a"); ("user_id", PInt 1);
          ("time", PStr "14.11.2023 22:13:20");
          ("action", PStr "add_record"); ("type", PStr "A");
          ("domain", PStr "example.com");
          ("answers", PList [PStr "1.2.3.4"; PStr "5.6.7.8"])].
Proof. vm_compute. reflexivity. Qed.

(** C3, refuted as stated: the resource of [typed_record] has a type and a
    domain, and its entry carries both of them and the raw resource. *)
Lemma resource_passthrough_with_type :
  exists e,
    run (@build_result utc_platform typed_record) = Return e /\
    dict_lookup "type" e = Some (PStr "A") /\
    dict_lookup "domain" e = Some (PStr "example.com") /\
    dict_lookup "resource" e =
      Some (PDict [("type", PStr "A"); ("domain", PStr "example.com")]).
Proof.
  eexists. split; [vm_compute; reflexivity |].
  repeat split; reflexivity.
Qed.

Lemma resource_passthrough_witness :
  run (@build_result utc_platform typed_record) =
    Return [("user_name", PStr "a"); ("user_id", PInt 1);
            ("time", PStr "14.11.2023 22:13:20");
            ("action", PStr "delete_record"); ("type", PStr "A");
            ("domain", PStr "example.com");
            ("resource", PDict [("type", PStr "A"); ("domain", PStr "example.com")])] /\
  exists d rd,
    typed_record = PDict d /\ dict_lookup "resource" d = Some (PDict rd) /\
    dict_lookup "resource"
      [("user_name", PStr "a"); ("user_id", PInt 1);
       ("time", PStr "14.11.2023 22:13:20");
       ("action", PStr "delete_record"); ("type", PStr "A");
       ("domain", PStr "example.com");
       ("resource", PDict [("type", PStr "A"); ("domain", PStr "example.com")])] =
      (if truthy (dict_get "answers" rd) then None else Some (PDict rd)) /\
    (In "answers"
       (dict_keys
          [("user_name", PStr "a"); ("user_id", PInt 1);
           ("time", PStr "14.11.2023 22:13:20");
           ("action", PStr "delete_record"); ("type", PStr "A");
           ("domain", PStr "example.com");
           ("resource", PDict [("type", PStr "A"); ("domain", PStr "example.com")])])
     <-> truthy (dict_get "answers" rd) = true) /\
    (In "resource"
       (dict_keys
          [("user_name", PStr "a"); ("user_id", PInt 1);
           ("time", PStr "14.11.2023 22:13:20");
           ("action", PStr "delete_record"); ("type", PStr "A");
           ("domain", PStr "example.com");
           ("resource", PDict [("type", PStr "A"); ("domain", PStr "example.com")])])
     <-> truthy (dict_get "answers" rd) = false).
Proof.
  split; [vm_compute; reflexivity |].
  apply (@resource_passthrough utc_platform typed_record).
  vm_compute. reflexivity.
Defined.

Lemma zone_from_resource_witness :
  run (@build_result utc_platform zone_record) =
    Return [("user_name", PStr "a"); ("user_id", PInt 1);
            ("zone", PStr "example.org");
            ("time", PStr "14.11.2023 22:13:20");
            ("action", PStr "update_zone");
            ("resource", PDict [("zone", PStr "example.org"); ("ttl", PInt 3600)])] /\
  exists d rd,
    zone_record = PDict d /\ dict_lookup "resource" d = Some (PDict rd) /\
    (In "zone"
       (dict_keys
          [("user_name", PStr "a"); ("user_id", PInt 1);
           ("zone", PStr "example.org");
           ("time", PStr "14.11.2023 22:13:20");
           ("action", PStr "update_zone");
           ("resource", PDict [("zone", PStr "example.org"); ("ttl", PInt 3600)])])
     <-> truthy (dict_get "zone" d) = true) /\
    dict_lookup "zone"
      [("user_name", PStr "a"); ("user_id", PInt 1);
       ("zone", PStr "example.org");
       ("time", PStr "14.11.2023 22:13:20");
       ("action", PStr "update_zone");
       ("resource", PDict [("zone", PStr "example.org"); ("ttl", PInt 3600)])] =
      (if truthy (dict_get "zone" d) then Some (dict_get "zone" rd) else None).
Proof.
  split; [vm_compute; reflexivity |].
  apply (@zone_from_resource utc_platform zone_record).
  vm_compute. reflexivity.
Defined.

Lemma entry_keys_order_witness :
  run (@build_result utc_platform zone_record) =
    Return [("user_name", PStr "a"); ("user_id", PInt 1);
            ("zone", PStr "example.org");
            ("time", PStr "14.11.2023 22:13:20");
            ("action", PStr "update_zone");
            ("resource", PDict [("zone", PStr "example.org"); ("ttl", PInt 3600)])] /\
  exists d rd,
    zone_record = PDict d /\ dict_lookup "resource" d = Some (PDict rd) /\
    dict_keys
      [("user_name", PStr "a"); ("user_id", PInt 1);
       ("zone", PStr "example.org");
       ("time", PStr "14.11.2023 22:13:20");
       ("action", PStr "update_zone");
       ("resource", PDict [("zone", PStr "example.org"); ("ttl", PInt 3600)])] =
      ["user_name"; "user_id"]
      ++ (if truthy (dict_get "zone" d) then ["zone"] else [])
      ++ ["time"; "action"]
      ++ (if truthy (dict_get "type" rd) then ["type"] else [])
      ++ (if truthy (dict_get "domain" rd) then ["domain"] else [])
      ++ [if truthy (dict_get "answers" rd) then "answers" else "resource"].
Proof.
  split; [vm_compute; reflexivity |].
  apply (@entry_keys_order utc_platform zone_record).
  vm_compute. reflexivity.
Defined.

Lemma parse_reports_bad_timestamp_witness :
  In untimed_record [sample_record; untimed_record; sample_record] /\
  dict_lookup "timestamp"
    [("user_name", PStr "a"); ("user_id", PInt 1);
     ("action", PStr "add_record"); ("resource", PDict sample_resource)] = None /\
  aborts (fst (@parse_reports utc_platform
                 (PList [sample_record; untimed_record; sample_record]) [])).
Proof.
  split; [cbn; auto |].
  split; [reflexivity |].
  apply (@parse_reports_bad_timestamp utc_platform
           [sample_record; untimed_record; sample_record]
           [("user_name", PStr "a"); ("user_id", PInt 1);
            ("action", PStr "add_record"); ("resource", PDict sample_resource)]
           []).
  - cbn. auto.
  - left. reflexivity.
Defined.

(** The record without [timestamp] ends the run with an uncaught [TypeError];
    the entry of the record before it is lost with the run. *)
Example untimed_record_raises :
  @parse_reports utc_platform (PList [sample_record; untimed_record; sample_record]) []
  = (Raise TypeError, [DebugItem sample_record; DebugItem untimed_record]).
Proof. vm_compute. reflexivity. Qed.

Lemma parse_reports_missing_resource_witness :
  In bare_record [sample_record; bare_record] /\
  dict_lookup "resource"
    [("user_name", PStr "a"); ("user_id", PInt 1);
     ("timestamp", PInt 1700000000); ("action", PStr "login")] = None /\
  aborts (fst (@parse_reports utc_platform (PList [sample_record; bare_record]) [])) /\
  forall rest,
    aborts (run (@convert_timestamp utc_platform
                   (dict_get "timestamp"
                      [("user_name", PStr "a"); ("user_id", PInt 1);
                       ("timestamp", PInt 1700000000); ("action", PStr "login")]))) \/
    @parse_reports utc_platform (PList (bare_record :: rest)) [] =
      (Exit (KeyError "resource"),
       ([] ++ [DebugItem bare_record]) ++ [ErrorItem bare_record]).
Proof.
  split; [cbn; auto |].
  split; [reflexivity |].
  apply (@parse_reports_missing_resource utc_platform [sample_record; bare_record]
           [("user_name", PStr "a"); ("user_id", PInt 1);
            ("timestamp", PInt 1700000000); ("action", PStr "login")]
           []).
  - cbn. auto.
  - reflexivity.
Defined.

(** ** Checks of the model against known values *)

(** The calendar: the epoch, a leap day, the first and the last day a
    [datetime] can hold. *)
Example calendar_samples :
  ymd_of_days 0 = (1970, 1, 1) /\
  ymd_of_days 11016 = (2000, 2, 29) /\
  ymd_of_days (1 - ymd2ord 1970 1 1) = (1, 1, 1) /\
  ymd_of_days (MAXORDINAL - ymd2ord 1970 1 1) = (9999, 12, 31) /\
  ymd2ord 9999 12 31 = MAXORDINAL /\
  ymd2ord 2000 2 29 - ymd2ord 1970 1 1 = 11016.
Proof. repeat split; reflexivity. Qed.

(** The true division agrees with the division of binary64 floats where both
    operands are floats themselves. *)
Example true_div_samples :
  forallb (fun a => SFeqb (true_div a (10 ^ 6))
                      (SFdiv 53 1024 (binary_normalize 53 1024 a 0 false)
                                     (binary_normalize 53 1024 (10 ^ 6) 0 false)))
    [1; 2; 3; 999999; 1000000; 1000001; 1500000; 123456789; 1700000000500000;
     1700000000999999; 4503599627370497; 9007199254740991; -5; -1700000000999999]
  = true.
Proof. vm_compute. reflexivity. Qed.

(** At the last instant of the calendar the quotient rounds up to the next
    whole second. *)
Example total_seconds_rounds_up :
  start_from datetime_max seconds 0 [] = (Return 253402300800, []) /\
  (datetime_max - datetime_ymd 1970 1 1) / 10 ^ 6 = 253402300799.
Proof. split; vm_compute; reflexivity. Qed.

(** * Further properties *)

(** ** Joining texts *)

Lemma string_app_nil_r (s : string) : (s ++ "")%string = s.
Proof. induction s as [| c s IH]; cbn; [reflexivity | now rewrite IH]. Qed.

Lemma string_app_assoc (s1 s2 s3 : string) :
  ((s1 ++ s2) ++ s3)%string = (s1 ++ (s2 ++ s3))%string.
Proof. induction s1 as [| c s1 IH]; cbn; [reflexivity | now rewrite IH]. Qed.

Lemma join_cons (x : string) (xs : list string) :
  String.concat "" (x :: xs) = (x ++ String.concat "" xs)%string.
Proof.
  destruct xs as [| y ys]; cbn; [now rewrite string_app_nil_r | reflexivity].
Qed.

Lemma join_app (xs ys : list string) :
  String.concat "" (xs ++ ys) =
  (String.concat "" xs ++ String.concat "" ys)%string.
Proof.
  induction xs as [| x xs IH]; [reflexivity |].
  rewrite <- app_comm_cons, !join_cons, IH, string_app_assoc. reflexivity.
Qed.

(** ** The loop of [parse_reports] *)

Section Loop.

Context {P : Platform}.

(** [item] is a record whose entry is [e]. *)
Let builds (item : value) (e : dict) : Prop := run (build_result item) = Return e.

Lemma report_text_app (es1 es2 : list dict) :
  report_text (es1 ++ es2) = (report_text es1 ++ report_text es2)%string.
Proof. unfold report_text. now rewrite flat_map_app, join_app. Qed.

Lemma for_items_app (xs ys : list value) (output : list string) (l : list log_record) :
  for_items (xs ++ ys) output l =
  (o <- for_items xs output ;; for_items ys o) l.
Proof.
  revert output l. induction xs as [| x xs IH]; intros output l.
  - reflexivity.
  - cbn [app for_items]. unfold bind.
    destruct (parse_item x output l) as [[o | ex | ex] l1]; try reflexivity.
    rewrite IH. reflexivity.
Qed.

(** Records that build: their lines follow [output] in the order of the
    records, and each record is logged once. *)
Lemma for_items_built (items : list value) (entries : list dict) :
  Forall2 builds items entries ->
  forall output l,
    for_items items output l =
    (Return (output ++ flat_map entry_lines entries), l ++ map DebugItem items).
Proof.
  induction 1 as [| item e items entries Hb _ IH]; intros output l.
  - cbn. now rewrite !app_nil_r.
  - cbn [for_items]. unfold bind. rewrite parse_item_eq, Hb, IH.
    cbn [flat_map map]. unfold entry_lines at 2.
    f_equal; rewrite <- !app_assoc; reflexivity.
Qed.

Lemma for_items_returns (items : list value) :
  forall output l o l',
    for_items items output l = (Return o, l') ->
    exists entries, Forall2 builds items entries.
Proof.
  induction items as [| item items IH]; intros output l o l' H.
  - exists []. constructor.
  - cbn [for_items] in H. unfold bind in H. rewrite parse_item_eq in H.
    destruct (run (build_result item)) as [e | ex | ex] eqn:Hb.
    + destruct (IH _ _ _ _ H) as [entries Hes].
      exists (e :: entries). constructor; assumption.
    + destruct ex; discriminate.
    + discriminate.
Qed.

(** X1: [parse_reports] returns on a list exactly when the entry of every
    record builds; the text is then the blocks of the entries, in the order of
    the records, and the log gains one debug record per record. *)
Theorem parse_reports_returns_iff (items : list value) (l : list log_record)
    (s : string) (l' : list log_record) :
  parse_reports (PList items) l = (Return s, l') <->
  exists entries,
    Forall2 (fun item e => run (build_result item) = Return e) items entries /\
    s = report_text entries /\
    l' = l ++ map DebugItem items.
Proof.
  rewrite parse_reports_list. unfold bind. split.
  - intros H.
    destruct (for_items items [] l) as [[o | ex | ex] l1] eqn:E; try discriminate.
    destruct (for_items_returns _ _ _ _ _ E) as [entries Hes].
    exists entries. split; [exact Hes |].
    rewrite (for_items_built _ _ Hes) in E.
    cbn in H, E. injection E as <- <-. injection H as <- <-.
    split; reflexivity.
  - intros (entries & Hes & -> & ->).
    rewrite (for_items_built _ _ Hes). reflexivity.
Qed.

(** X2: the report of two lists joined is the report of the first followed by
    the report of the second. *)
Theorem parse_reports_app (xs ys : list value) (s1 s2 : string) :
  run (parse_reports (PList xs)) = Return s1 ->
  run (parse_reports (PList ys)) = Return s2 ->
  run (parse_reports (PList (xs ++ ys))) = Return (s1 ++ s2)%string.
Proof.
  unfold run. rewrite !parse_reports_list. unfold bind.
  intros H1 H2.
  destruct (for_items xs [] []) as [[o1 | ex | ex] l1] eqn:E1; try discriminate.
  destruct (for_items ys [] []) as [[o2 | ex | ex] l2] eqn:E2; try discriminate.
  destruct (for_items_returns _ _ _ _ _ E1) as [es1 Hes1].
  destruct (for_items_returns _ _ _ _ _ E2) as [es2 Hes2].
  rewrite (for_items_built _ _ Hes1) in E1.
  rewrite (for_items_built _ _ Hes2) in E2.
  cbn in E1, E2, H1, H2.
  injection E1 as <- <-. injection E2 as <- <-.
  injection H1 as <-. injection H2 as <-.
  rewrite (for_items_built (xs ++ ys) (es1 ++ es2)) by (apply Forall2_app; assumption).
  cbn. rewrite flat_map_app, join_app. reflexivity.
Qed.

(** X3: the first record whose entry does not build decides the outcome,
    whatever follows it: a [KeyError] is logged and ends the process, any
    other exception leaves [parse_reports]; the records before it are logged
    and their entries lost. *)
Theorem parse_reports_first_failure (good rest : list value) (bad : value)
    (entries : list dict) (ex : exn) (l : list log_record) :
  Forall2 (fun item e => run (build_result item) = Return e) good entries ->
  run (build_result bad) = Raise ex ->
  parse_reports (PList (good ++ bad :: rest)) l =
  match ex with
  | KeyError k =>
      (Exit (KeyError k),
       (l ++ map DebugItem good) ++ [DebugItem bad; ErrorItem bad])
  | _ => (Raise ex, (l ++ map DebugItem good) ++ [DebugItem bad])
  end.
Proof.
  intros Hgood Hbad.
  rewrite parse_reports_list. unfold bind at 1.
  rewrite for_items_app. unfold bind at 1.
  rewrite (for_items_built _ _ Hgood).
  cbn [for_items]. unfold bind at 1. rewrite parse_item_eq, Hbad.
  destruct ex; try reflexivity.
  rewrite <- app_assoc. reflexivity.
Qed.

End Loop.

(** ** How the normaliser fails *)

Section Failures.

Context {P : Platform}.

Lemma int_outcome (v : value) :
  match run (int v) with
  | Return _ => True
  | Raise e => In e [TypeError; ValueError; OverflowError]
  | Exit _ => False
  end.
Proof.
  destruct v as [| b | n | f | s | xs | d]; cbn; auto.
  - destruct f; cbn; auto.
  - destruct (int_of_str s); cbn; auto.
Qed.

Lemma fromtimestamp_outcome (t : Z) :
  match run (fromtimestamp t) with
  | Return _ => True
  | Raise e => In e [ValueError; OverflowError; OSError]
  | Exit _ => False
  end.
Proof.
  unfold run, fromtimestamp, localtime, check_year, bind.
  repeat match goal with
         | |- context [if ?c then _ else _] => destruct c; cbn
         end; auto.
Qed.

Lemma convert_timestamp_outcome (v : value) :
  match run (convert_timestamp v) with
  | Return _ => True
  | Raise e => In e [TypeError; ValueError; OverflowError; OSError]
  | Exit _ => False
  end.
Proof.
  unfold convert_timestamp, run, bind.
  rewrite (pure_int v []).
  pose proof (int_outcome v) as Hi.
  destruct (run (int v)) as [n | e | e]; cbn [fst]; [| cbn in *; tauto | exact Hi].
  rewrite (pure_fromtimestamp n []).
  pose proof (fromtimestamp_outcome n) as Hf.
  destruct (run (fromtimestamp n)) as [dt | e | e]; cbn in *; tauto.
Qed.

Lemma mapM_answer_outcome (elems : list value) :
  match run (mapM (fun i => getitem i "answer") elems) with
  | Return _ => True
  | Raise e => e = KeyError "answer" \/ e = TypeError
  | Exit _ => False
  end.
Proof.
  induction elems as [| el elems IH]; [exact I |].
  unfold run at 1. cbn [mapM]. unfold bind.
  rewrite (pure_getitem el "answer" []).
  destruct (run (getitem el "answer")) as [x | e | e] eqn:Eg.
  - rewrite (pure_mapM (fun i => getitem i "answer") elems
               (fun a => pure_getitem a "answer") []).
    destruct (run (mapM (fun i => getitem i "answer") elems)); cbn; auto.
  - cbn. destruct el as [| b | n | f | s | xs | d]; cbn in Eg;
      try (injection Eg as <-; auto; fail).
    destruct (dict_lookup "answer" d); cbn in Eg; [discriminate |].
    injection Eg as <-. auto.
  - destruct el as [| b | n | f | s | xs | d]; cbn in Eg; try discriminate.
    destruct (dict_lookup "answer" d); discriminate.
Qed.

Lemma mapM_iter_outcome (parts : list value) :
  match run (mapM iter parts) with
  | Return _ => True
  | Raise e => e = TypeError
  | Exit _ => False
  end.
Proof.
  induction parts as [| a parts IH]; [exact I |].
  unfold run at 1. cbn [mapM]. unfold bind.
  rewrite (pure_iter a []).
  destruct (run (iter a)) as [x | e | e] eqn:Eg.
  - rewrite (pure_mapM iter parts pure_iter []).
    destruct (run (mapM iter parts)); cbn; auto.
  - cbn. destruct a; cbn in Eg; try discriminate; injection Eg as <-; reflexivity.
  - destruct a; cbn in Eg; discriminate.
Qed.

Lemma flatten_answers_outcome (a : value) :
  match run (flatten_answers a) with
  | Return _ => True
  | Raise e => e = KeyError "answer" \/ e = TypeError
  | Exit _ => False
  end.
Proof.
  unfold flatten_answers, chain_from_iterable, run, bind.
  rewrite (pure_iter a []).
  destruct (run (iter a)) as [elems | e | e] eqn:Ei; cbn [fst].
  - rewrite (pure_mapM (fun i => getitem i "answer") elems
               (fun x => pure_getitem x "answer") []).
    pose proof (mapM_answer_outcome elems) as Hm.
    destruct (run (mapM (fun i => getitem i "answer") elems)) as [parts | e | e];
      cbn [fst]; [| exact Hm | exact Hm].
    rewrite (pure_mapM iter parts pure_iter []).
    pose proof (mapM_iter_outcome parts) as Hc.
    destruct (run (mapM iter parts)) as [xss | e | e]; cbn in *; auto.
  - destruct a; cbn in Ei; try discriminate; injection Ei as <-; auto.
  - destruct a; cbn in Ei; discriminate.
Qed.

Ltac outcomes :=
  repeat (
    cbn -[convert_timestamp flatten_answers truthy dict_get dict_lookup run In];
    match goal with
    | H : dict_lookup ?k ?d = _ |- context [dict_lookup ?k ?d] => rewrite H
    | |- context [convert_timestamp ?v ?l] =>
        rewrite (pure_convert_timestamp v l);
        let H := fresh "Hc" in
        pose proof (convert_timestamp_outcome v) as H;
        destruct (run (convert_timestamp v))
    | |- context [flatten_answers ?v ?l] =>
        rewrite (pure_flatten_answers v l);
        let H := fresh "Hf" in
        pose proof (flatten_answers_outcome v) as H;
        destruct (run (flatten_answers v))
    | |- context [if truthy ?x then _ else _] => destruct (truthy x) eqn:?
    | |- context [dict_lookup "answers" ?rd] =>
        rewrite (dict_get_truthy "answers" rd) by assumption
    end).

(** What building an entry can end in: it never ends the process itself, a
    [KeyError] it raises is the one of [resource] or of [answer]. *)
Lemma build_result_outcome (item : value) :
  match run (build_result item) with
  | Return _ => True
  | Raise e => In e [AttributeError; TypeError; ValueError; OverflowError; OSError] \/ e = KeyError "resource" \/ e = KeyError "answer"
  | Exit _ => False
  end.
Proof.
  destruct item as [| b | n | f | s | xs | d]; try (cbn; auto 10; fail).
  unfold run at 1. unfold build_result, resource_get.
  destruct (dict_lookup "resource" d) as [r |] eqn:Hr.
  2:{ unfold bind. outcomes; cbn in *; intuition (subst; auto 10). }
  destruct r as [| b | n | f | s | xs | rd];
    unfold bind; outcomes; cbn in *; intuition (subst; auto 10).
Qed.

Lemma for_items_outcome (items : list value) :
  forall output l,
    match fst (for_items items output l) with
    | Return _ => True
    | Raise e => In e [AttributeError; TypeError; ValueError; OverflowError; OSError]
    | Exit e => e = KeyError "resource" \/ e = KeyError "answer"
    end.
Proof.
  induction items as [| item items IH]; intros output l; [exact I |].
  cbn [for_items]. unfold bind. rewrite parse_item_eq.
  pose proof (build_result_outcome item) as Hb.
  destruct (run (build_result item)) as [e | ex | ex]; [apply IH | | contradiction].
  destruct ex; cbn in *; intuition (try discriminate; auto 10).
Qed.

(** X4: whatever it is given, [parse_reports] ends the process only on the
    [KeyError] of a missing [resource] or [answer] key; every other failure
    is an uncaught [AttributeError], [TypeError], [ValueError],
    [OverflowError] or [OSError]. *)
Theorem parse_reports_outcomes (reports : value) (l : list log_record) :
  match fst (parse_reports reports l) with
  | Return _ => True
  | Raise e => In e [AttributeError; TypeError; ValueError; OverflowError; OSError]
  | Exit e => e = KeyError "resource" \/ e = KeyError "answer"
  end.
Proof.
  assert (Hloop : forall items,
             match fst ((output <- for_items items [] ;;
                         ret (String.concat "" output)) l) with
             | Return _ => True
             | Raise e => In e [AttributeError; TypeError; ValueError; OverflowError; OSError]
             | Exit e => e = KeyError "resource" \/ e = KeyError "answer"
             end).
  { intros items. unfold bind.
    pose proof (for_items_outcome items [] l) as H.
    destruct (for_items items [] l) as [[o | ex | ex] l1]; cbn in *; auto. }
  unfold parse_reports.
  destruct reports as [| b | n | f | s | xs | d]; try (cbn; auto; fail);
    cbn [len iter]; unfold bind at 1; cbn [ret];
    match goal with
    | |- context [negb (Z.of_nat ?n =? -1)] =>
        replace (Z.of_nat n =? -1) with false by (symmetry; apply Z.eqb_neq; lia)
    end; cbn [negb]; unfold bind at 2; cbn [ret]; apply Hloop.
Qed.

(** X5: what is not a list.  A text or a [dict] that is not empty is taken
    for a sequence of records, and its first element, a text, has no [get]:
    [AttributeError], after the element is logged; an empty text or [dict]
    gives the empty report; [None], a number or a truth value has no length:
    [TypeError]. *)
Theorem parse_reports_not_a_list (l : list log_record) :
  (forall c s,
     parse_reports (PStr (String c s)) l =
     (Raise AttributeError, l ++ [DebugItem (PStr (String c ""))])) /\
  (forall k v d,
     parse_reports (PDict ((k, v) :: d)) l =
     (Raise AttributeError, l ++ [DebugItem (PStr k)])) /\
  parse_reports (PStr "") l = (Return "", l) /\
  parse_reports (PDict []) l = (Return "", l) /\
  (forall v,
     match v with
     | PNone | PBool _ | PInt _ | PFloat _ =>
         parse_reports v l = (Raise TypeError, l)
     | _ => True
     end).
Proof.
  assert (Hneg : forall n, negb (Z.of_nat n =? -1) = true).
  { intros n. apply negb_true_iff, Z.eqb_neq. lia. }
  split; [| split; [| split; [| split]]].
  - intros c s. unfold parse_reports. cbn [len iter chars]. unfold bind at 1.
    cbn [ret]. rewrite Hneg. unfold bind at 1 2. cbn [ret for_items].
    unfold bind at 1. rewrite parse_item_eq. reflexivity.
  - intros k v d. unfold parse_reports. cbn [len iter dict_keys map fst].
    unfold bind at 1. cbn [ret]. rewrite Hneg. unfold bind at 1 2.
    cbn [ret for_items]. unfold bind at 1. rewrite parse_item_eq. reflexivity.
  - reflexivity.
  - reflexivity.
  - intros v. destruct v; try exact I; reflexivity.
Qed.

End Failures.

(** ** The fields of an entry *)

Section Entries.

Context {P : Platform}.

(** X6: an entry always has [user_name], [user_id] and [action], copied from
    the record as they are and [None] where the record lacks them, and a
    [time] that is the text of the converted timestamp. *)
Theorem entry_copied_fields (d e : dict) :
  run (build_result (PDict d)) = Return e ->
  dict_lookup "user_name" e = Some (dict_get "user_name" d) /\
  dict_lookup "user_id" e = Some (dict_get "user_id" d) /\
  dict_lookup "action" e = Some (dict_get "action" d) /\
  exists t,
    run (convert_timestamp (dict_get "timestamp" d)) = Return t /\
    dict_lookup "time" e = Some (PStr t).
Proof.
  intros H. apply build_result_spec in H.
  destruct H as (d' & rd & t & flat & Hd & Hr & Ht & _ & ->).
  injection Hd as <-.
  unfold entry_of, optional_key.
  destruct (truthy (dict_get "zone" d)), (truthy (dict_get "type" rd)),
    (truthy (dict_get "domain" rd)), (truthy (dict_get "answers" rd));
    cbn; repeat (split; [reflexivity |]); exists t; split; auto.
Qed.

(** X7: [type] and [domain] are in the entry exactly when the resource's are
    truthy, with the resource's value; an empty or absent one is left out. *)
Theorem entry_type_domain (d e : dict) :
  run (build_result (PDict d)) = Return e ->
  exists rd,
    dict_lookup "resource" d = Some (PDict rd) /\
    dict_lookup "type" e =
      (if truthy (dict_get "type" rd) then Some (dict_get "type" rd) else None) /\
    dict_lookup "domain" e =
      (if truthy (dict_get "domain" rd) then Some (dict_get "domain" rd) else None).
Proof.
  intros H. apply build_result_spec in H.
  destruct H as (d' & rd & t & flat & Hd & Hr & _ & _ & ->).
  injection Hd as <-. exists rd. split; [exact Hr |].
  unfold entry_of, optional_key.
  destruct (truthy (dict_get "zone" d)), (truthy (dict_get "type" rd)),
    (truthy (dict_get "domain" rd)), (truthy (dict_get "answers" rd));
    cbn; split; reflexivity.
Qed.

(** X8: the keys of an entry are pairwise distinct, between five and eight
    in number, and all among the nine the script writes. *)
Theorem entry_keys_distinct (item : value) (e : dict) :
  run (build_result item) = Return e ->
  NoDup (dict_keys e) /\
  (5 <= List.length e <= 8)%nat /\
  incl (dict_keys e)
    ["user_name"; "user_id"; "zone"; "time"; "action"; "type"; "domain";
     "answers"; "resource"].
Proof.
  intros H. apply build_result_spec in H.
  destruct H as (d & rd & t & flat & -> & Hr & _ & _ & ->).
  unfold entry_of, optional_key.
  destruct (truthy (dict_get "zone" d)), (truthy (dict_get "type" rd)),
    (truthy (dict_get "domain" rd)), (truthy (dict_get "answers" rd));
    cbn; (split; [| split; [lia |]]);
    try (repeat constructor; cbn; intuition discriminate);
    intros k Hk; cbn in *; intuition.
Qed.

(** ** Flattening the answers *)

Lemma mapM_answer_returns (elems parts : list value) :
  Forall2 (fun el a => exists ed, el = PDict ed /\ dict_lookup "answer" ed = Some a)
    elems parts ->
  run (mapM (fun i => getitem i "answer") elems) = Return parts.
Proof.
  induction 1 as [| el a elems parts (ed & -> & Ha) _ IH]; [reflexivity |].
  unfold run. cbn [mapM getitem]. rewrite Ha. unfold bind. cbn [ret].
  rewrite (pure_mapM (fun i => getitem i "answer") elems
             (fun x => pure_getitem x "answer") []), IH.
  reflexivity.
Qed.

Lemma mapM_iter_returns (parts : list value) (xss : list (list value)) :
  Forall2 (fun a xs => run (iter a) = Return xs) parts xss ->
  run (mapM iter parts) = Return xss.
Proof.
  induction 1 as [| a xs parts xss Ha _ IH]; [reflexivity |].
  unfold run. cbn [mapM]. unfold bind.
  rewrite (pure_iter a []), Ha, (pure_mapM iter parts pure_iter []), IH.
  reflexivity.
Qed.

(** The answers of elements that all have an [answer]: what iterating over
    each of them gives, joined in order. *)
Lemma flatten_answers_returns (elems parts : list value) (xss : list (list value)) :
  Forall2 (fun el a => exists ed, el = PDict ed /\ dict_lookup "answer" ed = Some a)
    elems parts ->
  Forall2 (fun a xs => run (iter a) = Return xs) parts xss ->
  run (flatten_answers (PList elems)) = Return (List.concat xss).
Proof.
  intros He Hp. unfold flatten_answers, chain_from_iterable, run, bind.
  cbn [iter ret].
  rewrite (pure_mapM (fun i => getitem i "answer") elems
             (fun x => pure_getitem x "answer") []),
    (mapM_answer_returns _ _ He).
  rewrite (pure_mapM iter parts pure_iter []), (mapM_iter_returns _ _ Hp).
  reflexivity.
Qed.

Lemma Forall2_map_r {A B C} (R : A -> C -> Prop) (f : B -> C)
    (xs : list A) (ys : list B) :
  Forall2 (fun x y => R x (f y)) xs ys -> Forall2 R xs (map f ys).
Proof. induction 1; cbn; constructor; assumption. Qed.

Lemma Forall2_map_same {B C} (R : C -> B -> Prop) (f : B -> C) (ys : list B) :
  (forall y, R (f y) y) -> Forall2 R (map f ys) ys.
Proof. intros H. induction ys; cbn; constructor; auto. Qed.

(** X9: a record whose timestamp converts and whose answers are a list, not
    empty, of objects that each hold a list under [answer], has an entry; its
    [answers] are those lists joined, in the order of the elements and of
    their members, and it carries no raw [resource]. *)
Theorem answers_flattened (d rd : dict) (elems : list value)
    (xss : list (list value)) (t : string) :
  dict_lookup "resource" d = Some (PDict rd) ->
  dict_lookup "answers" rd = Some (PList elems) ->
  elems <> [] ->
  Forall2 (fun el xs => exists ed,
             el = PDict ed /\ dict_lookup "answer" ed = Some (PList xs))
    elems xss ->
  run (convert_timestamp (dict_get "timestamp" d)) = Return t ->
  exists e,
    run (build_result (PDict d)) = Return e /\
    dict_lookup "answers" e = Some (PList (List.concat xss)) /\
    dict_lookup "resource" e = None.
Proof.
  intros Hr Ha Hne He Ht.
  assert (Hget : dict_get "answers" rd = PList elems)
    by (unfold dict_get; now rewrite Ha).
  assert (Htr : truthy (dict_get "answers" rd) = true)
    by (rewrite Hget; destruct elems; [contradiction | reflexivity]).
  exists (entry_of d rd t (List.concat xss)). split.
  - apply build_result_spec. exists d, rd, t, (List.concat xss).
    repeat (split; [first [reflexivity | assumption] |]).
    split; [| reflexivity]. rewrite Htr, Hget.
    apply flatten_answers_returns with (parts := map PList xss).
    + apply Forall2_map_r. exact He.
    + apply Forall2_map_same. reflexivity.
  - unfold entry_of, optional_key. rewrite Htr.
    destruct (truthy (dict_get "zone" d)), (truthy (dict_get "type" rd)),
      (truthy (dict_get "domain" rd)); cbn; split; reflexivity.
Qed.

(** X12: an [answer] that is a text, not a list of texts, is taken apart:
    the flattened answers are its characters. *)
Theorem answers_text_split (elems : list value) (texts : list string) :
  Forall2 (fun el s => exists ed,
             el = PDict ed /\ dict_lookup "answer" ed = Some (PStr s))
    elems texts ->
  run (flatten_answers (PList elems)) = Return (flat_map chars texts).
Proof.
  intros He. rewrite flat_map_concat_map.
  apply flatten_answers_returns with (parts := map PStr texts).
  - apply Forall2_map_r. exact He.
  - clear He. induction texts; cbn; constructor; auto.
Qed.

Lemma mapM_answer_missing (pre post : list value) (ed : dict) :
  Forall (fun el => exists ed' a, el = PDict ed' /\ dict_lookup "answer" ed' = Some a)
    pre ->
  dict_lookup "answer" ed = None ->
  run (mapM (fun i => getitem i "answer") (pre ++ PDict ed :: post)) =
  Raise (KeyError "answer").
Proof.
  intros Hpre Hed.
  induction Hpre as [| el pre (ed' & a & -> & Ha) _ IH].
  - unfold run. cbn [app mapM getitem]. rewrite Hed. reflexivity.
  - unfold run. cbn [app mapM getitem]. rewrite Ha. unfold bind. cbn [ret].
    rewrite (pure_mapM (fun i => getitem i "answer") (pre ++ PDict ed :: post)
               (fun x => pure_getitem x "answer") []), IH.
    reflexivity.
Qed.

(** X10: an element of the answers without an [answer] key, after elements
    that have one (whatever they hold under it), ends the run: the record is
    logged and the process exits on [KeyError('answer')], whatever the other
    elements and the records after it. *)
Theorem answers_missing_key (d rd ed : dict) (pre post rest : list value)
    (t : string) (l : list log_record) :
  dict_lookup "resource" d = Some (PDict rd) ->
  dict_lookup "answers" rd = Some (PList (pre ++ PDict ed :: post)) ->
  Forall (fun el => exists ed' a, el = PDict ed' /\ dict_lookup "answer" ed' = Some a)
    pre ->
  dict_lookup "answer" ed = None ->
  run (convert_timestamp (dict_get "timestamp" d)) = Return t ->
  parse_reports (PList (PDict d :: rest)) l =
  (Exit (KeyError "answer"), l ++ [DebugItem (PDict d); ErrorItem (PDict d)]).
Proof.
  intros Hr Ha Hpre Hed Ht.
  assert (Hget : dict_get "answers" rd = PList (pre ++ PDict ed :: post))
    by (unfold dict_get; now rewrite Ha).
  assert (Htr : truthy (dict_get "answers" rd) = true)
    by (rewrite Hget; destruct pre; reflexivity).
  assert (Hf : run (flatten_answers (PList (pre ++ PDict ed :: post))) =
               Raise (KeyError "answer")).
  { unfold flatten_answers, run, bind. cbn [iter ret].
    rewrite (pure_mapM (fun i => getitem i "answer") (pre ++ PDict ed :: post)
               (fun x => pure_getitem x "answer") []),
      (mapM_answer_missing _ _ _ Hpre Hed).
    reflexivity. }
  assert (Hb : run (build_result (PDict d)) = Raise (KeyError "answer")).
  { unfold run at 1. unfold build_result, resource_get, bind.
    repeat (
      cbn -[convert_timestamp flatten_answers truthy dict_get dict_lookup run];
      match goal with
      | H : dict_lookup ?k ?d = _ |- context [dict_lookup ?k ?d] => rewrite H
      | H : truthy ?x = _ |- context [if truthy ?x then _ else _] => rewrite H
      | |- context [convert_timestamp ?v ?l] =>
          rewrite (pure_convert_timestamp v l), Ht
      | |- context [flatten_answers ?v ?l] =>
          rewrite (pure_flatten_answers v l), Hf
      | |- context [if truthy ?x then _ else _] => destruct (truthy x) eqn:?
      end); reflexivity. }
  rewrite parse_reports_list. unfold bind at 1. cbn [for_items].
  unfold bind at 1. rewrite parse_item_eq, Hb. rewrite <- app_assoc. reflexivity.
Qed.

End Entries.

(** ** The calendar, there and back *)

Lemma days_before_next_year (y : Z) :
  days_before_year (y + 1) = days_before_year y + 365 + (if is_leap y then 1 else 0).
Proof.
  unfold days_before_year, is_leap.
  replace (y + 1 - 1) with y by lia.
  destruct (y mod 4 =? 0) eqn:E4; destruct (y mod 100 =? 0) eqn:E100;
    destruct (y mod 400 =? 0) eqn:E400; cbn [andb orb negb];
    rewrite ?Z.eqb_eq, ?Z.eqb_neq in *;
    Z.to_euclidean_division_equations; lia.
Qed.

(** The days before a month, counted from March as [ymd_of_days] counts
    them. *)
Lemma days_before_month_march (y mp : Z) :
  0 <= mp <= 11 ->
  days_before_month y (if mp <? 10 then mp + 3 else mp - 9) =
  (153 * mp + 2) / 5 +
  (if mp <? 10 then 59 + (if is_leap y then 1 else 0) else - 306).
Proof.
  intros H.
  assert (C : exists k, (k < 12)%nat /\ mp = Z.of_nat k)
    by (exists (Z.to_nat mp); lia).
  destruct C as (k & Hk & ->).
  unfold days_before_month, days_in_month.
  destruct (is_leap y);
    do 12 (destruct k as [| k]; [vm_compute; reflexivity |]); lia.
Qed.

(** The ordinal of the date of a day count is that count, from the ordinal
    of 1970-01-01 on. *)
Lemma ymd2ord_ymd_of_days (n : Z) :
  let '(y, m, d) := ymd_of_days n in
  ymd2ord y m d = n + ymd2ord 1970 1 1.
Proof.
  change (ymd2ord 1970 1 1) with 719163.
  unfold ymd_of_days.
  set (z := n + 719468). set (era := z / 146097).
  set (doe := z - era * 146097).
  set (yoe := (doe - doe / 1460 + doe / 36524 - doe / 146096) / 365).
  set (doy := doe - (365 * yoe + yoe / 4 - yoe / 100)).
  set (mp := (5 * doy + 2) / 153).
  assert (Hdoe : 0 <= doe <= 146096).
  { subst doe era. Z.to_euclidean_division_equations; lia. }
  assert (Hyoe : 0 <= yoe <= 399 /\ 0 <= doy <= 365).
  { subst doy yoe. clearbody doe. clear - Hdoe.
    Z.to_euclidean_division_equations; lia. }
  destruct Hyoe as [Hyoe Hdoy].
  assert (Hz : n = era * 146097 + 365 * yoe + yoe / 4 - yoe / 100 + doy - 719468).
  { subst doy doe z. lia. }
  assert (Hyear : days_before_year (yoe + era * 400 + 1) =
                  era * 146097 + 365 * yoe + yoe / 4 - yoe / 100).
  { unfold days_before_year. clear - Hyoe.
    Z.to_euclidean_division_equations; lia. }
  assert (Hmp : 0 <= mp <= 11) by (subst mp; Z.to_euclidean_division_equations; lia).
  pose proof (days_before_next_year (yoe + era * 400)) as Hnext.
  unfold ymd2ord.
  rewrite (days_before_month_march _ mp Hmp).
  clearbody mp doy yoe era. clear z doe Hdoe.
  destruct (mp <? 10) eqn:E; [apply Z.ltb_lt in E | apply Z.ltb_ge in E].
  - replace (mp + 3 <=? 2) with false by (symmetry; apply Z.leb_gt; lia).
    replace (yoe + era * 400 + 0) with (yoe + era * 400) by lia.
    destruct (is_leap (yoe + era * 400)); lia.
  - replace (mp - 9 <=? 2) with true by (symmetry; apply Z.leb_le; lia).
    lia.
Qed.

(** The fields of a broken-down time give back its seconds. *)
Lemma seconds_of_datetime_of_seconds (s : Z) :
  seconds_of_datetime (datetime_of_seconds s) = s.
Proof.
  unfold seconds_of_datetime, datetime_of_seconds.
  pose proof (ymd2ord_ymd_of_days (s / 86400)) as H.
  destruct (ymd_of_days (s / 86400)) as [[y m] d]. cbn [year month day hour minute second].
  rewrite H. Z.to_euclidean_division_equations; lia.
Qed.

(** ** The text of a timestamp *)

Lemma digit_inj (a b : Z) :
  0 <= a <= 9 -> 0 <= b <= 9 -> digit a = digit b -> a = b.
Proof.
  intros Ha Hb H. unfold digit in H.
  apply (f_equal nat_of_ascii) in H.
  rewrite !nat_ascii_embedding in H by lia. lia.
Qed.

Lemma pad2_inj (a b : Z) :
  0 <= a <= 99 -> 0 <= b <= 99 -> pad2 a = pad2 b -> a = b.
Proof.
  intros Ha Hb H. unfold pad2 in H. injection H as H1 H0.
  apply digit_inj in H1; [| Z.to_euclidean_division_equations; lia ..].
  apply digit_inj in H0; [| Z.to_euclidean_division_equations; lia ..].
  Z.to_euclidean_division_equations; lia.
Qed.

Lemma pad4_inj (a b : Z) :
  0 <= a <= 9999 -> 0 <= b <= 9999 -> pad4 a = pad4 b -> a = b.
Proof.
  intros Ha Hb H. unfold pad4 in H. injection H as H3 H2 H1 H0.
  apply digit_inj in H3; [| Z.to_euclidean_division_equations; lia ..].
  apply digit_inj in H2; [| Z.to_euclidean_division_equations; lia ..].
  apply digit_inj in H1; [| Z.to_euclidean_division_equations; lia ..].
  apply digit_inj in H0; [| Z.to_euclidean_division_equations; lia ..].
  Z.to_euclidean_division_equations; lia.
Qed.

Lemma strftime_shape_any (padded : bool) (dt : datetime) :
  fields_in_range dt -> padded = true \/ 1000 <= year dt ->
  has_shape "DD.MM.YYYY HH:MM:SS" (strftime padded dt) = true.
Proof.
  intros (Hy & Hm & Hd & HH & HM & HS) Hp.
  unfold strftime, year_field.
  replace (padded || (1000 <=? year dt)) with true.
  2:{ symmetry. apply orb_true_iff.
      destruct Hp as [-> | Hp]; [left; reflexivity | right; apply Z.leb_le; lia]. }
  unfold pad2, pad4. cbn [append has_shape].
  change (is_upper "D") with true. change (is_upper "M") with true.
  change (is_upper "Y") with true. change (is_upper "H") with true.
  change (is_upper "S") with true.
  change (is_upper ".") with false. change (is_upper " ") with false.
  change (is_upper ":") with false.
  cbv iota.
  rewrite !is_digit_digit by (Z.to_euclidean_division_equations; lia).
  reflexivity.
Qed.

(** Two broken-down times with the same text are the same. *)
Lemma strftime_inj (padded : bool) (dt1 dt2 : datetime) :
  fields_in_range dt1 -> fields_in_range dt2 ->
  padded = true \/ (1000 <= year dt1 /\ 1000 <= year dt2) ->
  strftime padded dt1 = strftime padded dt2 -> dt1 = dt2.
Proof.
  intros (Hy1 & Hm1 & Hd1 & HH1 & HM1 & HS1) (Hy2 & Hm2 & Hd2 & HH2 & HM2 & HS2) Hp.
  unfold strftime, year_field.
  replace (padded || (1000 <=? year dt1)) with true.
  2:{ symmetry. apply orb_true_iff.
      destruct Hp as [-> | Hp]; [left; reflexivity | right; apply Z.leb_le; lia]. }
  replace (padded || (1000 <=? year dt2)) with true.
  2:{ symmetry. apply orb_true_iff.
      destruct Hp as [-> | Hp]; [left; reflexivity | right; apply Z.leb_le; lia]. }
  destruct dt1 as [y1 m1 d1 h1 mi1 s1], dt2 as [y2 m2 d2 h2 mi2 s2].
  cbn [year month day hour minute second] in *.
  intros H. unfold pad2, pad4 in H. cbn [append] in H.
  injection H as Ed1 Ed0 Em1 Em0 Ey3 Ey2 Ey1 Ey0 Eh1 Eh0 Emi1 Emi0 Es1 Es0.
  assert (Hd : pad2 d1 = pad2 d2) by (unfold pad2; congruence).
  assert (Hm : pad2 m1 = pad2 m2) by (unfold pad2; congruence).
  assert (Hy : pad4 y1 = pad4 y2) by (unfold pad4; congruence).
  assert (Hh : pad2 h1 = pad2 h2) by (unfold pad2; congruence).
  assert (Hmi : pad2 mi1 = pad2 mi2) by (unfold pad2; congruence).
  assert (Hs : pad2 s1 = pad2 s2) by (unfold pad2; congruence).
  apply pad2_inj in Hd; [| lia ..]. apply pad2_inj in Hm; [| lia ..].
  apply pad2_inj in Hh; [| lia ..]. apply pad2_inj in Hmi; [| lia ..].
  apply pad2_inj in Hs; [| lia ..]. apply pad4_inj in Hy; [| lia ..].
  congruence.
Qed.

Section Timestamps.

Context {P : Platform}.

(** What [fromtimestamp] returns, and when. *)
Lemma fromtimestamp_returns (n : Z) (dt : datetime) :
  run (fromtimestamp n) = Return dt ->
  dt = datetime_of_seconds (n + utcoffset n) /\
  - 2 ^ 63 <= n < 2 ^ 63 /\
  fields_in_range dt /\
  1 <= year (datetime_of_seconds (n - 86400 + utcoffset (n - 86400))) <= 9999.
Proof.
  unfold run, fromtimestamp, localtime, check_year, bind.
  destruct (negb ((- 2 ^ 63 <=? n) && (n <? 2 ^ 63))) eqn:E0; [discriminate |].
  set (d1 := datetime_of_seconds (n + utcoffset n)).
  set (d0 := datetime_of_seconds (n - 86400 + utcoffset (n - 86400))).
  destruct ((- 2 ^ 31 <=? year d1 - 1900) && (year d1 - 1900 <? 2 ^ 31));
    [| discriminate].
  unfold ret at 1. cbv iota beta.
  destruct ((1 <=? year d1) && (year d1 <=? 9999)) eqn:E1; [| discriminate].
  unfold ret at 1. cbv iota beta.
  destruct ((- 2 ^ 31 <=? year d0 - 1900) && (year d0 - 1900 <? 2 ^ 31));
    [| discriminate].
  unfold ret at 1. cbv iota beta.
  destruct ((1 <=? year d0) && (year d0 <=? 9999)) eqn:E2; [| discriminate].
  unfold ret. cbv iota beta. cbn [fst]. intros H.
  assert (Hdt : d1 = dt) by congruence. subst dt.
  apply negb_false_iff, andb_prop in E0. destruct E0 as [A0 B0].
  apply andb_prop in E1. destruct E1 as [A1 B1].
  apply andb_prop in E2. destruct E2 as [A2 B2].
  apply Z.leb_le in A0, A1, B1, A2, B2. apply Z.ltb_lt in B0.
  pose proof (datetime_of_seconds_range (n + utcoffset n)) as R.
  cbv zeta in R. fold d1 in R.
  unfold fields_in_range. repeat split; lia.
Qed.

Lemma convert_timestamp_returns (v : value) (t : string) :
  run (convert_timestamp v) = Return t ->
  exists n,
    run (int v) = Return n /\
    run (fromtimestamp n) = Return (datetime_of_seconds (n + utcoffset n)) /\
    t = strftime pads_year (datetime_of_seconds (n + utcoffset n)).
Proof.
  unfold convert_timestamp, run at 1, bind.
  rewrite (pure_int v []).
  destruct (run (int v)) as [n | ex | ex]; cbn [fst]; try discriminate.
  rewrite (pure_fromtimestamp n []).
  destruct (run (fromtimestamp n)) as [dt | ex | ex] eqn:Ef; try discriminate.
  unfold ret. cbn [fst]. intros H.
  destruct (fromtimestamp_returns n dt Ef) as (-> & _).
  exists n. split; [reflexivity |]. split; [exact Ef | congruence].
Qed.

(** X11: the text [convert_timestamp] returns is the local broken-down time
    of the integer of its argument, a date of the years 1 to 9999 and a time
    of day; it reads [DD.MM.YYYY HH:MM:SS] in digits when the year has four
    digits or the platform pads it. *)
Theorem convert_timestamp_text (v : value) (t : string) :
  run (convert_timestamp v) = Return t ->
  exists n,
    run (int v) = Return n /\
    - 2 ^ 63 <= n < 2 ^ 63 /\
    fields_in_range (datetime_of_seconds (n + utcoffset n)) /\
    t = strftime pads_year (datetime_of_seconds (n + utcoffset n)) /\
    (pads_year = true \/ 1000 <= year (datetime_of_seconds (n + utcoffset n)) ->
     has_shape "DD.MM.YYYY HH:MM:SS" t = true).
Proof.
  intros H. destruct (convert_timestamp_returns v t H) as (n & Hn & Hf & ->).
  destruct (fromtimestamp_returns _ _ Hf) as (_ & Hr & Hd & _).
  exists n. split; [exact Hn |]. split; [exact Hr |]. split; [exact Hd |].
  split; [reflexivity |].
  intros Hp. apply strftime_shape_any; assumption.
Qed.

(** X13: two timestamps that are given the same text are the same second of
    local time: the text keeps everything but the offset of the zone. *)
Theorem convert_timestamp_injective (n1 n2 : Z) (t : string) :
  run (convert_timestamp (PInt n1)) = Return t ->
  run (convert_timestamp (PInt n2)) = Return t ->
  pads_year = true \/
    (1000 <= year (datetime_of_seconds (n1 + utcoffset n1)) /\
     1000 <= year (datetime_of_seconds (n2 + utcoffset n2))) ->
  n1 + utcoffset n1 = n2 + utcoffset n2.
Proof.
  intros H1 H2 Hp.
  destruct (convert_timestamp_returns _ _ H1) as (m1 & Hm1 & Hf1 & Ht1).
  destruct (convert_timestamp_returns _ _ H2) as (m2 & Hm2 & Hf2 & Ht2).
  cbn in Hm1, Hm2. injection Hm1 as <-. injection Hm2 as <-.
  destruct (fromtimestamp_returns _ _ Hf1) as (_ & _ & R1 & _).
  destruct (fromtimestamp_returns _ _ Hf2) as (_ & _ & R2 & _).
  assert (E : datetime_of_seconds (n1 + utcoffset n1) =
              datetime_of_seconds (n2 + utcoffset n2)).
  { apply (strftime_inj pads_year); try assumption. congruence. }
  rewrite <- (seconds_of_datetime_of_seconds (n1 + utcoffset n1)),
    <- (seconds_of_datetime_of_seconds (n2 + utcoffset n2)), E.
  reflexivity.
Qed.

End Timestamps.

(** ** What [get_reports] sends and returns *)

Section Fetching.

Variable utcnow : instant.
Variable session_get : request -> response + exn.

(** X14: in export mode a response of status 200 is returned as its bytes,
    whatever the format asked for; the body is not parsed and nothing is
    logged. *)
Theorem get_reports_export_verbatim (api_key : string) (u : unit_name)
    (amount limit : Z) (fmt : string) (l : list log_record) (start : Z)
    (r : response) :
  start_from utcnow u amount l = (Return start, l) ->
  session_get (mk_request api_key start limit (Some fmt)) = inl r ->
  status_code r = 200 ->
  get_reports utcnow session_get api_key u amount limit true fmt l =
  (Return (Content (content r)), l).
Proof.
  intros Hstart Hget Hstatus.
  unfold get_reports, bind. rewrite Hstart, Hget. cbn [ret].
  rewrite Hstatus. reflexivity.
Qed.

(** X15: without export the request carries no format, and a response of
    status 200 is returned as the object its body parses to; a body that is
    not JSON raises [ValueError].  Nothing is logged. *)
Theorem get_reports_records (api_key : string) (u : unit_name)
    (amount limit : Z) (fmt : string) (l : list log_record) (start : Z)
    (r : response) :
  start_from utcnow u amount l = (Return start, l) ->
  session_get (mk_request api_key start limit None) = inl r ->
  status_code r = 200 ->
  get_reports utcnow session_get api_key u amount limit false fmt l =
  match json r with
  | Some v => (Return (Object v), l)
  | None => (Raise ValueError, l)
  end.
Proof.
  intros Hstart Hget Hstatus.
  unfold get_reports, bind. rewrite Hstart, Hget. cbn [ret].
  rewrite Hstatus. cbn. unfold response_json.
  destruct (json r); reflexivity.
Qed.

(** X16: when the request itself fails, the exception is logged and the
    process exits on it: [get_reports] does not return. *)
Theorem get_reports_transport_failure (api_key : string) (u : unit_name)
    (amount limit : Z) (export : bool) (fmt : string) (l : list log_record)
    (start : Z) (e : exn) :
  start_from utcnow u amount l = (Return start, l) ->
  session_get (mk_request api_key start limit (if export then Some fmt else None))
    = inr e ->
  get_reports utcnow session_get api_key u amount limit export fmt l =
  (Exit e, l ++ [ErrorExn e]).
Proof.
  intros Hstart Hget.
  unfold get_reports, bind. rewrite Hstart, Hget. reflexivity.
Qed.

(** X18: [get_reports] exits only on an exception of the request, and what it
    raises is an [OverflowError] of the window, a [ValueError] of a body that
    is not JSON or an [AttributeError] of an error body that is not an
    object. *)
Theorem get_reports_outcomes (api_key : string) (u : unit_name)
    (amount limit : Z) (export : bool) (fmt : string) (l : list log_record) :
  match fst (get_reports utcnow session_get api_key u amount limit export fmt l) with
  | Return _ => True
  | Raise e => In e [OverflowError; ValueError; AttributeError]
  | Exit e => exists req, session_get req = inr e
  end.
Proof.
  unfold get_reports, bind. rewrite start_from_eq.
  destruct ((Z.abs (amount * us_per u / us_per_day) <=? 999999999)
            && ((0 <=? utcnow - amount * us_per u)
                && (utcnow - amount * us_per u <=? datetime_max)));
    [| cbn; auto].
  match goal with
  | |- context [session_get ?q] => destruct (session_get q) as [r | e] eqn:Eq
  end.
  - cbn [ret]. destruct (status_code r =? 200), export; cbn; auto;
      unfold response_json; destruct (json r) as [body |]; cbn; auto;
      destruct body; cbn; auto.
  - cbn. eexists. exact Eq.
Qed.

End Fetching.

(** X17: a window that starts before the year 1, or after the year 9999 for
    a negative amount, raises [OverflowError] before any request is made:
    the network is not consulted and nothing is logged. *)
Theorem get_reports_window_out_of_range (utcnow : instant)
    (session_get : request -> response + exn) (api_key : string)
    (u : unit_name) (amount limit : Z) (export : bool) (fmt : string)
    (l : list log_record) :
  utcnow - amount * us_per u < 0 \/ datetime_max < utcnow - amount * us_per u ->
  get_reports utcnow session_get api_key u amount limit export fmt l =
  (Raise OverflowError, l).
Proof.
  intros H. unfold get_reports, bind. rewrite start_from_eq.
  replace ((0 <=? utcnow - amount * us_per u)
           && (utcnow - amount * us_per u <=? datetime_max)) with false.
  - rewrite andb_false_r. reflexivity.
  - symmetry. apply andb_false_iff.
    destruct H as [H | H]; [left; apply Z.leb_gt | right; apply Z.leb_gt]; lia.
Qed.

(** ** More on the start of the window *)

(** X19: for a unit of whole seconds and a window that starts between the
    epoch and [2^33] seconds after it, the start is the current second less
    the seconds of the offset. *)
Theorem start_from_whole_seconds (now : instant) (u : unit_name) (a k : Z)
    (l : list log_record) :
  valid_instant now ->
  us_per u = k * 10 ^ 6 ->
  0 <= a ->
  datetime_ymd 1970 1 1 <= now - a * us_per u ->
  now - a * us_per u - datetime_ymd 1970 1 1 < 2 ^ 33 * 10 ^ 6 ->
  start_from now u a l =
  (Return ((now - datetime_ymd 1970 1 1) / 10 ^ 6 - a * k), l).
Proof.
  intros [Hn0 Hn1] Hk Ha Hlo Hhi.
  pose proof (us_per_pos u) as Hu.
  rewrite epoch_value in *.
  rewrite start_from_eq, epoch_value.
  unfold datetime_max, MAXORDINAL, us_per_day in Hn1.
  assert (Hmul : 0 <= a * us_per u) by nia.
  assert (Hday : 0 < us_per_day) by reflexivity.
  assert (Hdays : 0 <= a * us_per u / us_per_day <= 999999999).
  { split; [apply Z.div_pos; lia |].
    apply Z.div_le_upper_bound; [lia |]. unfold us_per_day. lia. }
  replace (Z.abs (a * us_per u / us_per_day) <=? 999999999) with true
    by (symmetry; apply Z.leb_le; lia).
  replace ((0 <=? now - a * us_per u) && (now - a * us_per u <=? datetime_max))
    with true.
  2:{ symmetry. apply andb_true_intro.
      split; apply Z.leb_le; unfold datetime_max, MAXORDINAL, us_per_day; lia. }
  cbn [andb]. rewrite int_true_div_exact by lia.
  do 2 f_equal.
  replace (now - a * us_per u - 62135596800000000)
    with (now - 62135596800000000 + (- (a * k)) * 10 ^ 6) by (rewrite Hk; ring).
  rewrite Z.div_add by lia. lia.
Qed.

(** X20: for any two amounts, negative ones included, the larger one does
    not give the later start. *)
Theorem start_from_antitone (now : instant) (u : unit_name) (a1 a2 : Z)
    (l : list log_record) (s1 s2 : Z) (l1 l2 : list log_record) :
  a1 <= a2 ->
  start_from now u a1 l = (Return s1, l1) ->
  start_from now u a2 l = (Return s2, l2) ->
  s2 <= s1.
Proof.
  intros Ha H1 H2.
  pose proof (us_per_pos u) as Hu.
  rewrite start_from_eq in H1, H2.
  destruct ((Z.abs (a1 * us_per u / us_per_day) <=? 999999999)
            && ((0 <=? now - a1 * us_per u)
                && (now - a1 * us_per u <=? datetime_max))) eqn:E1;
    [| discriminate].
  destruct ((Z.abs (a2 * us_per u / us_per_day) <=? 999999999)
            && ((0 <=? now - a2 * us_per u)
                && (now - a2 * us_per u <=? datetime_max))) eqn:E2;
    [| discriminate].
  injection H1 as <- _. injection H2 as <- _.
  apply andb_prop in E1, E2. destruct E1 as [_ E1], E2 as [_ E2].
  apply andb_prop in E1, E2. destruct E1 as [A1 B1], E2 as [A2 B2].
  apply Z.leb_le in A1, B1, A2, B2.
  rewrite epoch_value. unfold datetime_max, MAXORDINAL, us_per_day in *.
  apply int_true_div_mono; nia.
Qed.

(** X21: every start that is computed lies between the first and the last
    second of the calendar, counted from the epoch. *)
Theorem start_from_bounds (now : instant) (u : unit_name) (a : Z)
    (l : list log_record) (s : Z) (l' : list log_record) :
  start_from now u a l = (Return s, l') ->
  - 62135596800 <= s <= 253402300800.
Proof.
  intros H. rewrite start_from_eq in H.
  destruct ((Z.abs (a * us_per u / us_per_day) <=? 999999999)
            && ((0 <=? now - a * us_per u)
                && (now - a * us_per u <=? datetime_max))) eqn:E;
    [| discriminate].
  injection H as <- _.
  apply andb_prop in E. destruct E as [_ E].
  apply andb_prop in E. destruct E as [A B].
  apply Z.leb_le in A, B.
  rewrite epoch_value.
  set (x := now - a * us_per u) in *.
  assert (Lo : int_true_div (0 - 62135596800000000) (10 ^ 6) = - 62135596800)
    by (vm_compute; reflexivity).
  assert (Hi : int_true_div (datetime_max - 62135596800000000) (10 ^ 6)
               = 253402300800) by (vm_compute; reflexivity).
  unfold datetime_max, MAXORDINAL, us_per_day in *.
  split.
  - rewrite <- Lo. apply int_true_div_mono; lia.
  - rewrite <- Hi. apply int_true_div_mono; lia.
Qed.

(** ** The main part *)

Lemma call_eq {A} (m : M A) (r : result A) (l : list log_record) (t : list event) :
  m [] = (r, l) -> call m t = (r, t ++ map Logged l).
Proof. intros H. unfold call. rewrite H. reflexivity. Qed.


(** Two continuations that agree give the same computation. *)
Lemma bindW_ext {A B} (m : W A) (k1 k2 : A -> W B) :
  (forall a t, k1 a t = k2 a t) -> forall t, bindW m k1 t = bindW m k2 t.
Proof.
  intros H t. unfold bindW. destruct (m t) as [[a | ex | ex] t']; auto.
Qed.

Section MainPart.

Context {P : Platform}.

Variable utcnow : instant.
Variable session_get : request -> response + exn.
Variable decode_utf8 : string -> option string.

(** X22: the statement that builds [mail_params] and calls [send_mail] stops
    at its first expression, [args.header]: whatever follows it has no part
    in what the main part does, and no run of the script sends mail. *)
Theorem main_body_mail_unreached (rest1 rest2 : value -> W unit)
    (args : namespace) (api_key : string) (t : list event) :
  main_body utcnow session_get decode_utf8 rest1 args api_key t =
  main_body utcnow session_get decode_utf8 rest2 args api_key t.
Proof.
  assert (Hh : forall (k : value -> W unit) t0,
             bindW (call (getattr args "header")) k t0 = (Raise AttributeError, t0)).
  { intros k t0. unfold bindW, call, getattr. cbn. now rewrite app_nil_r. }
  unfold main_body. revert t.
  apply bindW_ext. intros _.
  apply bindW_ext. intros report.
  apply bindW_ext. intros _.
  apply bindW_ext. intros parsed_reports.
  apply bindW_ext. intros _ t.
  destruct (is_set (arg_mailto args)); [| reflexivity].
  revert t. apply bindW_ext. intros n t.
  destruct (negb (n =? 0)); [| reflexivity].
  rewrite !Hh. reflexivity.
Qed.



(** X25: without export, the message of an API error is handed to
    [parse_reports] as if it were the records: a message that is a text, not
    empty, ends the main part in [AttributeError], after its first character
    is logged as a record; nothing is printed. *)
Theorem main_body_api_error (rest : value -> W unit) (args : namespace)
    (api_key : string) (t : list event) (start : Z) (r : response) (d : dict)
    (c : ascii) (msg : string) :
  arg_export args = false ->
  start_from utcnow (arg_unit args) (arg_amount args) [] = (Return start, []) ->
  session_get (mk_request api_key start (arg_limit args) None) = inl r ->
  status_code r <> 200 ->
  json r = Some (PDict d) ->
  dict_get "message" d = PStr (String c msg) ->
  main_body utcnow session_get decode_utf8 rest args api_key t =
  (Raise AttributeError,
   t ++ [LoggedParams api_key args; Logged (ErrorBody (PDict d));
         LoggedReport (Object (PStr (String c msg)));
         Logged (DebugItem (PStr (String c "")))]).
Proof.
  intros Hexp Hstart Hget Hstatus Hjson Hmsg.
  assert (Hg : get_reports utcnow session_get api_key (arg_unit args)
                 (arg_amount args) (arg_limit args) false (arg_format args) []
               = (Return (Object (PStr (String c msg))), [ErrorBody (PDict d)])).
  { unfold get_reports, bind. rewrite Hstart, Hget. cbn [ret].
    destruct (status_code r =? 200) eqn:E; [apply Z.eqb_eq in E; contradiction |].
    unfold response_json. rewrite Hjson. cbn. rewrite Hmsg. reflexivity. }
  assert (Hp : parse_reports (PStr (String c msg)) [] =
               (Raise AttributeError, [DebugItem (PStr (String c ""))])).
  { unfold parse_reports. cbn [len iter chars]. unfold bind at 1. cbn [ret].
    replace (negb (Z.of_nat (String.length (String c msg)) =? -1)) with true
      by (symmetry; apply negb_true_iff, Z.eqb_neq; lia).
    unfold bind at 1 2. cbn [ret for_items]. unfold bind at 1.
    rewrite parse_item_eq. reflexivity. }
  unfold main_body. rewrite Hexp. cbn [negb].
  unfold bindW, emit.
  rewrite (call_eq _ _ _ _ Hg).
  rewrite (call_eq (parse_reports_of (Object (PStr (String c msg)))) _ _ _ Hp).
  cbn [map]. rewrite <- !app_assoc. reflexivity.
Qed.


End MainPart.


(** ** The further properties at sample inputs *)

Lemma parse_reports_app_witness :
  run (@parse_reports utc_platform (PList [sample_record]))
    = Return ("---" ++ nl ++ nl)%string /\
  run (@parse_reports utc_platform (PList [typed_record; zone_record]))
    = Return ("---" ++ nl ++ nl ++ "---" ++ nl ++ nl)%string /\
  run (@parse_reports utc_platform
         (PList ([sample_record] ++ [typed_record; zone_record])))
    = Return (("---" ++ nl ++ nl) ++ ("---" ++ nl ++ nl ++ "---" ++ nl ++ nl))%string.
Proof.
  split; [vm_compute; reflexivity |].
  split; [vm_compute; reflexivity |].
  apply (@parse_reports_app utc_platform [sample_record] [typed_record; zone_record]);
    vm_compute; reflexivity.
Defined.

Lemma parse_reports_first_failure_witness :
  Forall2 (fun item e => run (@build_result utc_platform item) = Return e)
    [sample_record] [sample_entry] /\
  run (@build_result utc_platform untimed_record) = Raise TypeError /\
  @parse_reports utc_platform
    (PList ([sample_record] ++ untimed_record :: [zone_record])) []
  = (Raise TypeError,
     ([] ++ map DebugItem [sample_record]) ++ [DebugItem untimed_record]).
Proof.
  assert (H : Forall2 (fun item e => run (@build_result utc_platform item) = Return e)
                [sample_record] [sample_entry]).
  { constructor; [vm_compute; reflexivity | constructor]. }
  split; [exact H |].
  split; [vm_compute; reflexivity |].
  apply (@parse_reports_first_failure utc_platform [sample_record] [zone_record]
           untimed_record [sample_entry] TypeError [] H).
  vm_compute. reflexivity.
Defined.

Lemma entry_copied_fields_witness :
  run (@build_result utc_platform (PDict sample_fields)) = Return sample_entry /\
  dict_lookup "user_name" sample_entry = Some (dict_get "user_name" sample_fields) /\
  dict_lookup "user_id" sample_entry = Some (dict_get "user_id" sample_fields) /\
  dict_lookup "action" sample_entry = Some (dict_get "action" sample_fields) /\
  exists t,
    run (@convert_timestamp utc_platform (dict_get "timestamp" sample_fields))
      = Return t /\
    dict_lookup "time" sample_entry = Some (PStr t).
Proof.
  split; [vm_compute; reflexivity |].
  apply (@entry_copied_fields utc_platform sample_fields sample_entry).
  vm_compute. reflexivity.
Defined.

Lemma entry_type_domain_witness :
  run (@build_result utc_platform (PDict sample_fields)) = Return sample_entry /\
  exists rd,
    dict_lookup "resource" sample_fields = Some (PDict rd) /\
    dict_lookup "type" sample_entry =
      (if truthy (dict_get "type" rd) then Some (dict_get "type" rd) else None) /\
    dict_lookup "domain" sample_entry =
      (if truthy (dict_get "domain" rd) then Some (dict_get "domain" rd) else None).
Proof.
  split; [vm_compute; reflexivity |].
  apply (@entry_type_domain utc_platform sample_fields sample_entry).
  vm_compute. reflexivity.
Defined.

Lemma entry_keys_distinct_witness :
  run (@build_result utc_platform sample_record) = Return sample_entry /\
  NoDup (dict_keys sample_entry) /\
  (5 <= List.length sample_entry <= 8)%nat /\
  incl (dict_keys sample_entry)
    ["user_name"; "user_id"; "zone"; "time"; "action"; "type"; "domain";
     "answers"; "resource"].
Proof.
  split; [vm_compute; reflexivity |].
  apply (@entry_keys_distinct utc_platform sample_record sample_entry).
  vm_compute. reflexivity.
Defined.

Lemma answers_flattened_witness :
  dict_lookup "resource" sample_fields = Some (PDict sample_resource) /\
  dict_lookup "answers" sample_resource =
    Some (PList [PDict [("answer", PList [PStr "1.2.3.4"])];
                 PDict [("answer", PList [PStr "5.6.7.8"])]]) /\
  run (@convert_timestamp utc_platform (dict_get "timestamp" sample_fields))
    = Return "14.11.2023 22:13:20" /\
  exists e,
    run (@build_result utc_platform (PDict sample_fields)) = Return e /\
    dict_lookup "answers" e =
      Some (PList (List.concat [[PStr "1.2.3.4"]; [PStr "5.6.7.8"]])) /\
    dict_lookup "resource" e = None.
Proof.
  split; [reflexivity |].
  split; [reflexivity |].
  split; [vm_compute; reflexivity |].
  apply (@answers_flattened utc_platform sample_fields sample_resource
           [PDict [("answer", PList [PStr "1.2.3.4"])];
            PDict [("answer", PList [PStr "5.6.7.8"])]]
           [[PStr "1.2.3.4"]; [PStr "5.6.7.8"]] "14.11.2023 22:13:20").
  - reflexivity.
  - reflexivity.
  - discriminate.
  - constructor; [eexists; split; reflexivity |].
    constructor; [eexists; split; reflexivity | constructor].
  - vm_compute. reflexivity.
Defined.

Lemma answers_missing_key_witness :
  dict_lookup "resource" broken_fields = Some (PDict broken_resource) /\
  dict_lookup "answers" broken_resource =
    Some (PList ([PDict [("answer", PList [PStr "1.2.3.4"])]]
                 ++ PDict [("ttl", PInt 60)] :: [])) /\
  dict_lookup "answer" [("ttl", PInt 60)] = None /\
  @parse_reports utc_platform (PList [PDict broken_fields; sample_record]) []
  = (Exit (KeyError "answer"),
     [] ++ [DebugItem (PDict broken_fields); ErrorItem (PDict broken_fields)]).
Proof.
  split; [reflexivity |].
  split; [reflexivity |].
  split; [reflexivity |].
  apply (@answers_missing_key utc_platform broken_fields broken_resource
           [("ttl", PInt 60)] [PDict [("answer", PList [PStr "1.2.3.4"])]] []
           [sample_record] "14.11.2023 22:13:20" []).
  - reflexivity.
  - reflexivity.
  - constructor; [| constructor].
    exists [("answer", PList [PStr "1.2.3.4"])], (PList [PStr "1.2.3.4"]).
    split; reflexivity.
  - reflexivity.
  - vm_compute. reflexivity.
Defined.

Lemma convert_timestamp_text_witness :
  run (@convert_timestamp utc_platform (PInt 1700000000))
    = Return "14.11.2023 22:13:20" /\
  exists n,
    run (@int utc_platform (PInt 1700000000)) = Return n /\
    - 2 ^ 63 <= n < 2 ^ 63 /\
    fields_in_range (datetime_of_seconds (n + @utcoffset utc_platform n)) /\
    "14.11.2023 22:13:20" =
      strftime (@pads_year utc_platform)
        (datetime_of_seconds (n + @utcoffset utc_platform n)) /\
    (@pads_year utc_platform = true \/
     1000 <= year (datetime_of_seconds (n + @utcoffset utc_platform n)) ->
     has_shape "DD.MM.YYYY HH:MM:SS" "14.11.2023 22:13:20" = true).
Proof.
  split; [vm_compute; reflexivity |].
  apply (@convert_timestamp_text utc_platform (PInt 1700000000)
           "14.11.2023 22:13:20").
  vm_compute. reflexivity.
Defined.

Lemma answers_text_split_witness :
  Forall2 (fun el s => exists ed,
             el = PDict ed /\ dict_lookup "answer" ed = Some (PStr s))
    [PDict [("answer", PStr "ns1")]] ["ns1"] /\
  run (flatten_answers (PList [PDict [("answer", PStr "ns1")]]))
    = Return [PStr "n"; PStr "s"; PStr "1"].
Proof.
  assert (H : Forall2 (fun el s => exists ed,
                         el = PDict ed /\ dict_lookup "answer" ed = Some (PStr s))
                [PDict [("answer", PStr "ns1")]] ["ns1"]).
  { constructor; [eexists; split; reflexivity | constructor]. }
  split; [exact H |].
  apply (answers_text_split [PDict [("answer", PStr "ns1")]] ["ns1"] H).
Defined.

Lemma convert_timestamp_injective_witness :
  run (@convert_timestamp fold_platform (PInt 0)) = Return "01.01.1970 01:00:00" /\
  run (@convert_timestamp fold_platform (PInt 3600)) = Return "01.01.1970 01:00:00" /\
  0 + @utcoffset fold_platform 0 = 3600 + @utcoffset fold_platform 3600.
Proof.
  split; [vm_compute; reflexivity |].
  split; [vm_compute; reflexivity |].
  apply (@convert_timestamp_injective fold_platform 0 3600 "01.01.1970 01:00:00").
  - vm_compute. reflexivity.
  - vm_compute. reflexivity.
  - right. vm_compute. split; discriminate.
Defined.

Lemma get_reports_export_verbatim_witness :
  start_from (datetime_ymd 2023 11 14) hours 1 [] = (Return 1699916400, []) /\
  export_ok (mk_request "key" 1699916400 20 (Some "csv"))
    = inl (mk_response 200 "user,action" None) /\
  get_reports (datetime_ymd 2023 11 14) export_ok "key" hours 1 20 true "csv" []
    = (Return (Content "user,action"), []).
Proof.
  split; [vm_compute; reflexivity |].
  split; [reflexivity |].
  apply (get_reports_export_verbatim (datetime_ymd 2023 11 14) export_ok "key"
           hours 1 20 "csv" [] 1699916400 (mk_response 200 "user,action" None)).
  - vm_compute. reflexivity.
  - reflexivity.
  - reflexivity.
Defined.

Lemma get_reports_records_witness :
  start_from (datetime_ymd 2023 11 14) hours 1 [] = (Return 1699916400, []) /\
  records_ok (mk_request "key" 1699916400 20 None)
    = inl (mk_response 200 "[...]" (Some (PList [sample_record]))) /\
  get_reports (datetime_ymd 2023 11 14) records_ok "key" hours 1 20 false "json" []
    = (Return (Object (PList [sample_record])), []).
Proof.
  split; [vm_compute; reflexivity |].
  split; [reflexivity |].
  apply (get_reports_records (datetime_ymd 2023 11 14) records_ok "key"
           hours 1 20 "json" [] 1699916400
           (mk_response 200 "[...]" (Some (PList [sample_record])))).
  - vm_compute. reflexivity.
  - reflexivity.
  - reflexivity.
Defined.

Lemma get_reports_transport_failure_witness :
  start_from (datetime_ymd 2023 11 14) hours 1 [] = (Return 1699916400, []) /\
  unreachable (mk_request "key" 1699916400 20 None)
    = inr (ConnectionError "Name or service not known") /\
  get_reports (datetime_ymd 2023 11 14) unreachable "key" hours 1 20 false "json" []
    = (Exit (ConnectionError "Name or service not known"),
       [] ++ [ErrorExn (ConnectionError "Name or service not known")]).
Proof.
  split; [vm_compute; reflexivity |].
  split; [reflexivity |].
  apply (get_reports_transport_failure (datetime_ymd 2023 11 14) unreachable "key"
           hours 1 20 false "json" [] 1699916400
           (ConnectionError "Name or service not known")).
  - vm_compute. reflexivity.
  - reflexivity.
Defined.

Lemma get_reports_window_out_of_range_witness :
  (datetime_ymd 1 1 1 - 1 * us_per hours < 0 \/
   datetime_max < datetime_ymd 1 1 1 - 1 * us_per hours) /\
  get_reports (datetime_ymd 1 1 1) records_ok "key" hours 1 20 false "json" []
    = (Raise OverflowError, []).
Proof.
  split; [left; vm_compute; reflexivity |].
  apply (get_reports_window_out_of_range (datetime_ymd 1 1 1) records_ok "key"
           hours 1 20 false "json" []).
  left. vm_compute. reflexivity.
Defined.

Lemma start_from_whole_seconds_witness :
  valid_instant (datetime_ymd 2300 1 1 + 500000) /\
  us_per weeks = 604800 * 10 ^ 6 /\
  datetime_ymd 1970 1 1 <= datetime_ymd 2300 1 1 + 500000 - 5000 * us_per weeks /\
  datetime_ymd 2300 1 1 + 500000 - 5000 * us_per weeks - datetime_ymd 1970 1 1
    < 2 ^ 33 * 10 ^ 6 /\
  2 ^ 33 * 10 ^ 6 <= datetime_ymd 2300 1 1 + 500000 - datetime_ymd 1970 1 1 /\
  start_from (datetime_ymd 2300 1 1 + 500000) weeks 5000 [] =
  (Return ((datetime_ymd 2300 1 1 + 500000 - datetime_ymd 1970 1 1) / 10 ^ 6
           - 5000 * 604800), []).
Proof.
  split; [unfold valid_instant; vm_compute; split; discriminate |].
  split; [reflexivity |].
  split; [vm_compute; discriminate |].
  split; [vm_compute; reflexivity |].
  split; [vm_compute; discriminate |].
  apply (start_from_whole_seconds (datetime_ymd 2300 1 1 + 500000) weeks 5000
           604800 []).
  - unfold valid_instant. vm_compute. split; discriminate.
  - reflexivity.
  - lia.
  - vm_compute. discriminate.
  - vm_compute. reflexivity.
Defined.

Lemma start_from_antitone_witness :
  start_from (datetime_ymd 2023 11 14) hours (- 1) [] = (Return 1699923600, []) /\
  start_from (datetime_ymd 2023 11 14) hours 1 [] = (Return 1699916400, []) /\
  1699916400 <= 1699923600.
Proof.
  split; [vm_compute; reflexivity |].
  split; [vm_compute; reflexivity |].
  apply (start_from_antitone (datetime_ymd 2023 11 14) hours (- 1) 1 []
           1699923600 1699916400 [] []).
  - lia.
  - vm_compute. reflexivity.
  - vm_compute. reflexivity.
Defined.

Lemma start_from_bounds_witness :
  start_from (datetime_ymd 1 1 1) hours 0 [] = (Return (- 62135596800), []) /\
  - 62135596800 <= - 62135596800 <= 253402300800.
Proof.
  split; [vm_compute; reflexivity |].
  apply (start_from_bounds (datetime_ymd 1 1 1) hours 0 [] (- 62135596800) []).
  vm_compute. reflexivity.
Defined.



Lemma main_body_api_error_witness :
  start_from (datetime_ymd 2023 11 14) hours 1 [] = (Return 1699916400, []) /\
  401 <> 200 /\
  @main_body utc_platform (datetime_ymd 2023 11 14) unauthorized ascii_text no_mail
    default_args "key" []
  = (Raise AttributeError,
     [LoggedParams "key" default_args;
      Logged (ErrorBody (PDict [("message", PStr "Unauthorized")]));
      LoggedReport (Object (PStr "Unauthorized"));
      Logged (DebugItem (PStr "U"))]).
Proof.
  split; [vm_compute; reflexivity |].
  split; [discriminate |].
  apply (@main_body_api_error utc_platform (datetime_ymd 2023 11 14) unauthorized
           ascii_text no_mail default_args "key" [] 1699916400
           (mk_response 401 "{'message': 'Unauthorized'}"
              (Some (PDict [("message", PStr "Unauthorized")])))
           [("message", PStr "Unauthorized")] "U" "nauthorized").
  - reflexivity.
  - vm_compute. reflexivity.
  - reflexivity.
  - discriminate.
  - reflexivity.
  - reflexivity.
Defined.

